(** * transaction-builder: the Sui validators and the Pump.fun launch helper

    A shallow embedding of [src/utils/sui.ts] and of the Pump.fun launch
    module ([uploadMetadata], [createTokenTransaction],
    [launchPumpFunToken]), with the properties of their request and error
    behaviour.

    Conventions.
    - A JS string is a [string]; one character stands for one UTF-16 code
      unit.  No function below looks inside a character except to compare
      it with an ASCII literal.
    - A JS number is a binary64 value, [spec_float].
    - A [Uint8Array] is a [list byte].
    - [async] code is written in the monad [Async]: the state is the trace
      of the calls made to the outside so far, the result is a normal
      completion or a thrown value.  What the outside answers is given by a
      [World]. *)

From Stdlib Require Import String Ascii List NArith ZArith Lia Bool.
From Stdlib Require Import Strings.Byte.
From Stdlib Require Import Floats.SpecFloat DecimalString.
Import ListNotations.
Local Open Scope string_scope.
Local Open Scope list_scope.
Set Warnings "-register-all".

(* ================================================================== *)
(** * JavaScript values *)
(* ================================================================== *)

Definition number := spec_float.

(** The literals [0], [10] and [0.0001] as binary64 values:
    [0.0001] is [0x1.a36e2eb1c432dp-14]. *)
Definition num_0 : number := S754_zero false.
Definition num_10 : number := S754_finite false 5629499534213120 (-49).
Definition num_0_0001 : number := S754_finite false 7378697629483821 (-66).

(** A value as [Response.json()] produces it, plus [undefined]. *)
Inductive JsValue : Type :=
| JUndefined
| JNull
| JBool (b : bool)
| JNum (x : number)
| JStr (s : string)
| JArr (items : list JsValue)
| JObj (fields : list (string * JsValue)).

(** ToBoolean on numbers: [+0], [-0] and [NaN] are falsy. *)
Definition number_truthy (x : number) : bool :=
  match x with
  | S754_zero _ | S754_nan => false
  | _ => true
  end.

(** ToBoolean on strings: only the empty string is falsy. *)
Definition string_truthy (s : string) : bool :=
  match s with
  | EmptyString => false
  | _ => true
  end.

(** ToBoolean. *)
Definition truthy (v : JsValue) : bool :=
  match v with
  | JUndefined | JNull => false
  | JBool b => b
  | JNum x => number_truthy x
  | JStr s => string_truthy s
  | JArr _ | JObj _ => true
  end.

(** What can be thrown: an [Error] instance ([name], [message] and the
    further properties it carries, such as [logs]) or a bare string. *)
Inductive Thrown : Type :=
| ErrorObject (name message : string) (props : list (string * JsValue))
| ThrownString (s : string).

(** [new Error(message)] *)
Definition new_Error (message : string) : Thrown :=
  ErrorObject "Error" message [].

(** [new TypeError(message)] *)
Definition new_TypeError (message : string) : Thrown :=
  ErrorObject "TypeError" message [].

(** [`${e}`]: [Error.prototype.toString] on an error, the string itself
    otherwise. *)
Definition toString (e : Thrown) : string :=
  match e with
  | ErrorObject n m _ =>
      match n, m with
      | EmptyString, _ => m
      | _, EmptyString => n
      | _, _ => n ++ ": " ++ m
      end
  | ThrownString s => s
  end.

(** [`${n}`] for a non-negative integer. *)
Definition decimal (n : N) : string :=
  NilEmpty.string_of_uint (N.to_uint n).

Fixpoint assoc (k : string) (fields : list (string * JsValue)) : option JsValue :=
  match fields with
  | [] => None
  | (k', v) :: rest => if String.eqb k k' then Some v else assoc k rest
  end.

(** [e instanceof Error] *)
Definition instanceof_Error (e : Thrown) : bool :=
  match e with
  | ErrorObject _ _ _ => true
  | ThrownString _ => false
  end.

(** [key in e], for a key that is not one of [Error.prototype]'s. *)
Definition has_property (key : string) (e : Thrown) : bool :=
  match e with
  | ErrorObject _ _ props =>
      match assoc key props with Some _ => true | None => false end
  | ThrownString _ => false
  end.

(** [(e as any)[key]] *)
Definition property_of (key : string) (e : Thrown) : JsValue :=
  match e with
  | ErrorObject _ _ props =>
      match assoc key props with Some v => v | None => JUndefined end
  | ThrownString _ => JUndefined
  end.

(** [s.startsWith(p)] *)
Fixpoint startsWith (s p : string) {struct p} : bool :=
  match p with
  | EmptyString => true
  | String c p' =>
      match s with
      | EmptyString => false
      | String d s' => Ascii.eqb d c && startsWith s' p'
      end
  end.

(** [s.includes(t)] *)
Fixpoint includes (s t : string) : bool :=
  startsWith s t ||
  match s with
  | EmptyString => false
  | String _ s' => includes s' t
  end.

(* ================================================================== *)
(** * Completions *)
(* ================================================================== *)

Inductive Completion (A : Type) : Type :=
| Return (a : A)
| Throw (e : Thrown).
Arguments Return {A} a.
Arguments Throw {A} e.

Definition throws {A} (c : Completion A) : bool :=
  match c with Throw _ => true | Return _ => false end.

(** [v[key]] for a key that no built-in prototype defines: a [TypeError]
    on [undefined] and [null] (the message is V8's), the own property of
    an object, [undefined] otherwise. *)
Definition js_get (v : JsValue) (key : string) : Completion JsValue :=
  match v with
  | JUndefined =>
      Throw (new_TypeError
        ("Cannot read properties of undefined (reading '" ++ key ++ "')"))
  | JNull =>
      Throw (new_TypeError
        ("Cannot read properties of null (reading '" ++ key ++ "')"))
  | JObj fields =>
      Return (match assoc key fields with Some x => x | None => JUndefined end)
  | _ => Return JUndefined
  end.

(* ================================================================== *)
(** * [btoa] and its inverse *)
(* ================================================================== *)

Definition base64_alphabet : string :=
  "ABCDEFGHIJKLMNOPQRSTUVWXYZabcdefghijklmnopqrstuvwxyz0123456789+/".

(** The character of a 6-bit group. *)
Definition sextet_char (n : N) : ascii :=
  match String.get (N.to_nat n) base64_alphabet with
  | Some c => c
  | None => "="%char
  end.

(** The 6-bit group of a character of the alphabet. *)
Definition char_sextet (c : ascii) : option N :=
  let n := N_of_ascii c in
  if (65 <=? n)%N && (n <=? 90)%N then Some (n - 65)%N
  else if (97 <=? n)%N && (n <=? 122)%N then Some (n - 71)%N
  else if (48 <=? n)%N && (n <=? 57)%N then Some (n + 4)%N
  else if (n =? 43)%N then Some 62%N
  else if (n =? 47)%N then Some 63%N
  else None.

(** [btoa(s)] on a binary string (every code unit below 256, which holds
    of every [string] here): three bytes give four characters, the last
    group is padded with [=]. *)
Fixpoint btoa (s : string) : string :=
  match s with
  | EmptyString => EmptyString
  | String a EmptyString =>
      let x := N_of_ascii a in
      String (sextet_char (x / 4))
     (String (sextet_char ((x mod 4) * 16)) "==")
  | String a (String b EmptyString) =>
      let x := N_of_ascii a in
      let y := N_of_ascii b in
      String (sextet_char (x / 4))
     (String (sextet_char ((x mod 4) * 16 + y / 16))
     (String (sextet_char ((y mod 16) * 4)) "="))
  | String a (String b (String c rest)) =>
      let x := N_of_ascii a in
      let y := N_of_ascii b in
      let z := N_of_ascii c in
      String (sextet_char (x / 4))
     (String (sextet_char ((x mod 4) * 16 + y / 16))
     (String (sextet_char ((y mod 16) * 4 + z / 64))
     (String (sextet_char (z mod 64)) (btoa rest))))
  end%N.

(** Decoding of padded base64, four characters at a time; [None] on
    anything else. *)
Fixpoint base64_decode (s : string) : option string :=
  match s with
  | EmptyString => Some EmptyString
  | String c0 (String c1 (String c2 (String c3 rest))) =>
      match char_sextet c0, char_sextet c1 with
      | Some s0, Some s1 =>
          let a := ascii_of_N (s0 * 4 + s1 / 16) in
          match char_sextet c2, char_sextet c3 with
          | Some s2, Some s3 =>
              match base64_decode rest with
              | Some tl =>
                  Some (String a
                       (String (ascii_of_N ((s1 mod 16) * 16 + s2 / 4))
                       (String (ascii_of_N ((s2 mod 4) * 64 + s3)) tl)))
              | None => None
              end
          | Some s2, None =>
              if Ascii.eqb c3 "=" && String.eqb rest ""
              then Some (String a
                        (String (ascii_of_N ((s1 mod 16) * 16 + s2 / 4)) ""))
              else None
          | None, _ =>
              if Ascii.eqb c2 "=" && Ascii.eqb c3 "=" && String.eqb rest ""
              then Some (String a "")
              else None
          end
      | _, _ => None
      end
  | _ => None
  end%N.

(** The 6-bit groups, [0] to [63]. *)
Definition sextets : list N := map N.of_nat (seq 0 64).

(** [String.fromCharCode(...bytes)] *)
Definition String_fromCharCode (bytes : list byte) : string :=
  string_of_list_byte bytes.

(** The bytes of a binary string, [Uint8Array.from(s, c => c.charCodeAt(0))]. *)
Definition bytes_of_binary_string (s : string) : list byte :=
  list_byte_of_string s.

(* ================================================================== *)
(** * Data model *)
(* ================================================================== *)

Definition PublicKey := list byte.

(** [Keypair] of the Solana SDK. *)
Module Keypair.
Record t : Type := { publicKey : PublicKey; secretKey : list byte }.
End Keypair.

(** [interface PumpFunTokenOptions]: every member is optional. *)
Module PumpFunTokenOptions.
Record t : Type := {
  twitter : option string;
  telegram : option string;
  website : option string;
  initialBuyAmount : option number;
  slippageBps : option number;
  priorityFee : option number
}.
End PumpFunTokenOptions.

(** [options?.member] *)
Definition optional {A} (options : option PumpFunTokenOptions.t)
    (member : PumpFunTokenOptions.t -> option A) : option A :=
  match options with
  | Some o => member o
  | None => None
  end.

(** [x || d] for an optional number [x]. *)
Definition number_or (x : option number) (d : number) : number :=
  match x with
  | Some v => if number_truthy v then v else d
  | None => d
  end.

(** [if (x)] for an optional string [x]. *)
Definition present (x : option string) : bool :=
  match x with
  | Some s => string_truthy s
  | None => false
  end.

Record TokenMetadata : Type := {
  name : JsValue;
  symbol : JsValue;
  uri : JsValue
}.

(** The object literal [payload] of [createTokenTransaction]. *)
Record Payload : Type := {
  publicKey : string;
  action : string;
  tokenMetadata : TokenMetadata;
  mint : PublicKey;
  denominatedInSol : string;
  amount : number;
  slippage : number;
  priorityFee : number;
  pool : string
}.

Definition Blob := list byte.

(** [new File(bits, filename, { type })] *)
Record File : Type := {
  bits : list Blob;
  filename : string;
  type : string
}.

Inductive FormValue : Type :=
| FormString (s : string)
| FormFile (f : File).

(** A [FormData]: its entries in the order they were appended. *)
Definition FormData := list (string * FormValue).

(** The body of a request.  [JsonBody p] stands for [JSON.stringify(p)]. *)
Inductive Body : Type :=
| NoBody
| FormBody (form : FormData)
| JsonBody (payload : Payload).

(** [fetch(url, init)]: the members of [init] that the code sets. *)
Record Request : Type := {
  url : string;
  method : option string;
  headers : list (string * string);
  body : Body;
  agent : option string
}.

(** A [Response]: its status line and what each reader of its body
    resolves or rejects with. *)
Record Response : Type := {
  status : N;
  statusText : string;
  blob : Completion Blob;
  text : Completion string;
  json : Completion JsValue;
  arrayBuffer : Completion (list byte)
}.

(** [response.ok]: the status is in the range 200-299. *)
Definition ok (r : Response) : bool :=
  ((200 <=? status r) && (status r <=? 299))%N.

(* ================================================================== *)
(** * The outside world and the [Async] monad *)
(* ================================================================== *)

Inductive LogArg : Type :=
| LogThrown (e : Thrown)
| LogValue (v : JsValue).

(** The calls that leave the program. *)
Inductive Event : Type :=
| Fetch (req : Request)
| GetCoinMetadata (coinType : string)
| ConsoleError (label : string) (arg : LogArg).

Definition Trace := list Event.

(** What the outside answers, given the calls made so far;
    [IPFS_HTTP_PROXY] is [process.env.IPFS_HTTP_PROXY], and
    [HttpsProxyAgent_answer url] says whether [new HttpsProxyAgent(url)]
    constructs an agent or throws (the constructor parses [url] with
    [new URL], which throws a [TypeError] on a string that is not an
    absolute URL). *)
Record World : Type := {
  fetch_answer : Trace -> Request -> Completion Response;
  getCoinMetadata_answer : Trace -> string -> Completion JsValue;
  Keypair_generate_answer : Trace -> Completion Keypair.t;
  IPFS_HTTP_PROXY : option string;
  HttpsProxyAgent_answer : string -> Completion unit
}.

(** The part of the Solana SDK that the launch uses. *)
Record Web3 : Type := {
  VersionedTransaction : Type;
  deserialize : list byte -> Completion VersionedTransaction;
  sign : VersionedTransaction -> list Keypair.t -> Completion VersionedTransaction;
  serialize : VersionedTransaction -> Completion (list byte)
}.

Definition Async (A : Type) : Type := Trace -> Completion A * Trace.

Definition ret {A} (a : A) : Async A := fun tr => (Return a, tr).

Definition throw {A} (e : Thrown) : Async A := fun tr => (Throw e, tr).

Definition bind {A B} (m : Async A) (k : A -> Async B) : Async B :=
  fun tr =>
    match m tr with
    | (Return a, tr') => k a tr'
    | (Throw e, tr') => (Throw e, tr')
    end.

(** [try { m } catch (error) { handler error }] *)
Definition try_catch {A} (m : Async A) (handler : Thrown -> Async A) : Async A :=
  fun tr =>
    match m tr with
    | (Return a, tr') => (Return a, tr')
    | (Throw e, tr') => handler e tr'
    end.

(** A completion that is already known. *)
Definition settle {A} (c : Completion A) : Async A := fun tr => (c, tr).

Declare Scope async_scope.
Delimit Scope async_scope with async.
Notation "x <- m ;; k" := (bind m (fun x => k))
  (at level 61, m at next level, right associativity) : async_scope.
Notation "m ;;; k" := (bind m (fun _ => k))
  (at level 61, right associativity) : async_scope.
Local Open Scope async_scope.

Section Effects.
Variable w : World.

(** [await fetch(...)] *)
Definition fetch (req : Request) : Async Response :=
  fun tr => (fetch_answer w tr req, tr ++ [Fetch req]).

(** [await suiClient.getCoinMetadata({ coinType })] *)
Definition getCoinMetadata (coinType : string) : Async JsValue :=
  fun tr => (getCoinMetadata_answer w tr coinType, tr ++ [GetCoinMetadata coinType]).

(** [Keypair.generate()] *)
Definition Keypair_generate : Async Keypair.t :=
  fun tr => (Keypair_generate_answer w tr, tr).

(** [console.error(label, arg)] *)
Definition console_error (label : string) (arg : LogArg) : Async unit :=
  fun tr => (Return tt, tr ++ [ConsoleError label arg]).
End Effects.

(* ================================================================== *)
(** * [src/utils/sui.ts] *)
(* ================================================================== *)

Definition validateSuiAddress (address : string) : Completion unit :=
  if negb (startsWith address "0x") || negb (String.length address =? 66)%nat
  then Throw (new_Error (address ++ " is not a valid Sui address."))
  else Return tt.

Section Sui.
Variable w : World.

Definition validateSuiCoinType (coinType : string) : Async unit :=
  try_catch
    (coinTypeObject <- getCoinMetadata w coinType ;;
     if negb (truthy coinTypeObject)
     then throw (new_Error (coinType ++ " is not a valid Sui coin type."))
     else ret tt)
    (fun error =>
       throw (new_Error (coinType ++ " is not a valid Sui coin type."))).
End Sui.

(* ================================================================== *)
(** * The Pump.fun launch module *)
(* ================================================================== *)

(** [form.append(key, value)] *)
Definition append {V} (form : list (string * V)) (key : string) (value : V)
    : list (string * V) :=
  form ++ [(key, value)].

(** [if (options?.member) { form.append(key, options.member) }] *)
Definition append_if_present (form : list (string * string)) (key : string)
    (member : option string) : list (string * string) :=
  match member with
  | Some s => if string_truthy s then append form key s else form
  | None => form
  end.

(** The [URLSearchParams] that [uploadMetadata] fills first. *)
Definition metadata_fields (tokenName tokenTicker description : string)
    (options : option PumpFunTokenOptions.t) : list (string * string) :=
  let formData := [] in
  let formData := append formData "name" tokenName in
  let formData := append formData "symbol" tokenTicker in
  let formData := append formData "description" description in
  let formData := append formData "showName" "true" in
  let formData :=
    append_if_present formData "twitter"
      (optional options PumpFunTokenOptions.twitter) in
  let formData :=
    append_if_present formData "telegram"
      (optional options PumpFunTokenOptions.telegram) in
  append_if_present formData "website"
    (optional options PumpFunTokenOptions.website).

(** [files.file] *)
Definition image_file (imageBlob : Blob) : File :=
  {| bits := [imageBlob]; filename := "token_image.png"; type := "image/png" |}.

(** [finalFormData]: every entry of [formData], then the file (a [File]
    object is truthy, so it is always appended). *)
Definition final_form (formData : list (string * string)) (file : File)
    : FormData :=
  let finalFormData :=
    fold_left (fun acc kv => append acc (fst kv) (FormString (snd kv)))
      formData [] in
  append finalFormData "file" (FormFile file).

(** [fetch(imageUrl)] *)
Definition image_request (imageUrl : string) : Request :=
  {| url := imageUrl; method := None; headers := []; body := NoBody;
     agent := None |}.

(** [fetchOptions.agent], line 63:
    [process.env.IPFS_HTTP_PROXY ? new HttpsProxyAgent(process.env.IPFS_HTTP_PROXY) : undefined].
    An agent is identified by the proxy URL it was constructed with; the
    constructor may throw. *)
Definition proxy_agent (w : World) : Completion (option string) :=
  match IPFS_HTTP_PROXY w with
  | Some proxy =>
      if string_truthy proxy
      then
        match HttpsProxyAgent_answer w proxy with
        | Return _ => Return (Some proxy)
        | Throw e => Throw e
        end
      else Return None
  | None => Return None
  end.

(** [fetch("https://pump.fun/api/ipfs", fetchOptions)], for the agent that
    was constructed. *)
Definition upload_request (agent : option string) (finalFormData : FormData)
    : Request :=
  {| url := "https://pump.fun/api/ipfs";
     method := Some "POST";
     headers := [];
     body := FormBody finalFormData;
     agent := agent |}.

(** [fetch("https://pumpportal.fun/api/trade-local", ...)] *)
Definition trade_request (payload : Payload) : Request :=
  {| url := "https://pumpportal.fun/api/trade-local";
     method := Some "POST";
     headers := [("Content-Type", "application/json")];
     body := JsonBody payload;
     agent := None |}.

(** The evaluation of the object literal [payload]. *)
Definition build_payload (publicKey : string) (mintKeypair : Keypair.t)
    (metadataResponse : JsValue) (options : option PumpFunTokenOptions.t)
    : Completion Payload :=
  match js_get metadataResponse "metadata" with
  | Throw e => Throw e
  | Return metadata =>
  match js_get metadata "name" with
  | Throw e => Throw e
  | Return name =>
  match js_get metadata "symbol" with
  | Throw e => Throw e
  | Return symbol =>
  match js_get metadataResponse "metadataUri" with
  | Throw e => Throw e
  | Return metadataUri =>
      Return
        {| publicKey := publicKey;
           action := "create";
           tokenMetadata :=
             {| name := name; symbol := symbol; uri := metadataUri |};
           mint := Keypair.publicKey mintKeypair;
           denominatedInSol := "true";
           amount :=
             number_or (optional options PumpFunTokenOptions.initialBuyAmount)
               num_0;
           slippage :=
             number_or (optional options PumpFunTokenOptions.slippageBps)
               num_10;
           priorityFee :=
             number_or (optional options PumpFunTokenOptions.priorityFee)
               num_0_0001;
           pool := "pump" |}
  end end end end.

Section PumpFun.
Variable w : World.
Variable sdk : Web3.

Definition uploadMetadata (tokenName tokenTicker description imageUrl : string)
    (options : option PumpFunTokenOptions.t) : Async JsValue :=
  let formData := metadata_fields tokenName tokenTicker description options in
  imageBlob <-
    try_catch
      (imageResponse <- fetch w (image_request imageUrl) ;;
       settle (blob imageResponse))
      (fun error => throw (new_Error ("Failed to fetch image: " ++ toString error))) ;;
  let finalFormData := final_form formData (image_file imageBlob) in
  agent <- settle (proxy_agent w) ;;
  metadataResponse <-
    try_catch
      (fetch w (upload_request agent finalFormData))
      (fun error => throw (new_Error ("Failed to upload metadata: " ++ toString error))) ;;
  if negb (ok metadataResponse)
  then throw (new_Error ("Metadata upload failed: " ++ statusText metadataResponse))
  else settle (json metadataResponse).

Definition createTokenTransaction (publicKey : string) (mintKeypair : Keypair.t)
    (metadataResponse : JsValue) (options : option PumpFunTokenOptions.t)
    : Async Response :=
  payload <- settle (build_payload publicKey mintKeypair metadataResponse options) ;;
  response <- fetch w (trade_request payload) ;;
  if negb (ok response)
  then
    errorText <- settle (text response) ;;
    throw (new_Error ("Transaction creation failed: "
                      ++ decimal (status response) ++ " - " ++ errorText))
  else ret response.

(** The [try] block of [launchPumpFunToken]. *)
Definition launch_try (publicKey tokenName tokenTicker description imageUrl : string)
    (options : option PumpFunTokenOptions.t) : Async string :=
  mintKeypair <- Keypair_generate w ;;
  metadataResponse <-
    uploadMetadata tokenName tokenTicker description imageUrl options ;;
  response <-
    createTokenTransaction publicKey mintKeypair metadataResponse options ;;
  transactionData <- settle (arrayBuffer response) ;;
  tx <- settle (deserialize sdk transactionData) ;;
  signed <- settle (sign sdk tx [mintKeypair]) ;;
  uint8Array <- settle (serialize sdk signed) ;;
  ret (btoa (String_fromCharCode uint8Array)).

(** The [catch] block of [launchPumpFunToken]. *)
Definition launch_catch (error : Thrown) : Async string :=
  console_error "Error in launchpumpfuntoken:" (LogThrown error) ;;;
  (if instanceof_Error error && has_property "logs" error
   then console_error "Transaction logs:" (LogValue (property_of "logs" error))
   else ret tt) ;;;
  throw error.

Definition launchPumpFunToken (publicKey tokenName tokenTicker description imageUrl : string)
    (options : option PumpFunTokenOptions.t) : Async string :=
  try_catch
    (launch_try publicKey tokenName tokenTicker description imageUrl options)
    launch_catch.
End PumpFun.

(** What the [catch] block writes to the console. *)
Definition catch_logs (error : Thrown) : Trace :=
  ConsoleError "Error in launchpumpfuntoken:" (LogThrown error) ::
  (if instanceof_Error error && has_property "logs" error
   then [ConsoleError "Transaction logs:" (LogValue (property_of "logs" error))]
   else []).

(* ================================================================== *)
(** * The payload as the specification words it *)
(* ================================================================== *)

(** "equals the option when provided and the default when absent" *)
Definition provided_or (x : option number) (d : number) : number :=
  match x with
  | Some v => v
  | None => d
  end.

(** The payload of the specification, for the values [name], [symbol] and
    [uri] read from the upload result. *)
Definition specified_payload (publicKey : string) (mintKeypair : Keypair.t)
    (name symbol uri : JsValue) (options : option PumpFunTokenOptions.t)
    : Payload :=
  {| publicKey := publicKey;
     action := "create";
     tokenMetadata := {| name := name; symbol := symbol; uri := uri |};
     mint := Keypair.publicKey mintKeypair;
     denominatedInSol := "true";
     amount :=
       provided_or (optional options PumpFunTokenOptions.initialBuyAmount) num_0;
     slippage :=
       provided_or (optional options PumpFunTokenOptions.slippageBps) num_10;
     priorityFee :=
       provided_or (optional options PumpFunTokenOptions.priorityFee) num_0_0001;
     pool := "pump" |}.

(* ================================================================== *)
(** * Observations on a trace *)
(* ================================================================== *)

(** The requests sent with [method: "POST"], oldest first. *)
Fixpoint posts (tr : Trace) : list Request :=
  match tr with
  | [] => []
  | Fetch req :: rest =>
      match method req with
      | Some m => if String.eqb m "POST" then req :: posts rest else posts rest
      | None => posts rest
      end
  | _ :: rest => posts rest
  end.

Definition is_log (ev : Event) : bool :=
  match ev with
  | ConsoleError _ _ => true
  | _ => false
  end.

(** Membership of an entry in a [FormData]. *)
Definition form_file (form : FormData) : option File :=
  match filter (fun kv => String.eqb (fst kv) "file") form with
  | (_, FormFile f) :: _ => Some f
  | _ => None
  end.

(* ================================================================== *)
(** * A mocked outside, for concrete runs *)
(* ================================================================== *)

Definition mock_response (code : N) (reason : string) (content : list byte)
    (parsed : Completion JsValue) : Response :=
  {| status := code;
     statusText := reason;
     blob := Return content;
     text := Return (String_fromCharCode content);
     json := parsed;
     arrayBuffer := Return content |}.

Definition not_json : Completion JsValue :=
  Throw (ErrorObject "SyntaxError" "Unexpected end of JSON input" []).

Definition mock_keypair : Keypair.t :=
  {| Keypair.publicKey := [x01; x02; x03; x04];
     Keypair.secretKey := [xf1; xf2; xf3; xf4] |}.

(** [{metadata:{name:"T",symbol:"TICK"}, metadataUri:"ipfs://x"}] *)
Definition mock_metadata : JsValue :=
  JObj [("metadata", JObj [("name", JStr "T"); ("symbol", JStr "TICK")]);
        ("metadataUri", JStr "ipfs://x")].

(** Answers chosen by the URL that is fetched. *)
Definition mock_world (image upload trade : Completion Response)
    (lookup : Completion JsValue) : World :=
  {| fetch_answer := fun _ req =>
       if String.eqb (url req) "https://pump.fun/api/ipfs" then upload
       else if String.eqb (url req) "https://pumpportal.fun/api/trade-local"
            then trade
            else image;
     getCoinMetadata_answer := fun _ _ => lookup;
     Keypair_generate_answer := fun _ => Return mock_keypair;
     IPFS_HTTP_PROXY := None;
     HttpsProxyAgent_answer := fun _ => Return tt |}.

(** A toy SDK: a transaction is a list of signatures and a message; a
    signer's signature is its secret key followed by the message. *)
Record MockTransaction : Type := {
  signatures : list (list byte);
  message : list byte
}.

Definition mock_sdk : Web3 :=
  {| VersionedTransaction := MockTransaction;
     deserialize := fun bytes =>
       match bytes with
       | [] => Throw (new_Error "Reached end of buffer unexpectedly")
       | _ => Return {| signatures := []; message := bytes |}
       end;
     sign := fun tx signers =>
       Return {| signatures :=
                   signatures tx ++
                   map (fun kp => Keypair.secretKey kp ++ message tx) signers;
                 message := message tx |};
     serialize := fun tx => Return (concat (signatures tx) ++ message tx) |}.

(** The bytes of a serialized transaction, when serializing succeeds. *)
Definition serialize_bytes (tx : MockTransaction) : option (list byte) :=
  match serialize mock_sdk tx with
  | Return bytes => Some bytes
  | Throw _ => None
  end.

Definition png_bytes : list byte := [x89; x50; x4e; x47].
Definition html_404 : list byte := [x3c; x68; x31; x3e].
Definition tx_bytes : list byte := [x80; x01; x00; x01; x03; xff].

Definition image_200 : Response := mock_response 200 "OK" png_bytes not_json.
Definition image_404 : Response := mock_response 404 "Not Found" html_404 not_json.
Definition upload_200 : Response :=
  mock_response 200 "OK" [] (Return mock_metadata).
Definition upload_503 : Response :=
  mock_response 503 "Service Unavailable" [] not_json.
Definition trade_200 : Response := mock_response 200 "OK" tx_bytes not_json.
Definition trade_400 : Response :=
  mock_response 400 "Bad Request" [x62; x61; x64] not_json.

Definition network_error : Thrown :=
  ErrorObject "TypeError" "fetch failed" [].

(** Every endpoint answers well. *)
Definition happy_world : World :=
  mock_world (Return image_200) (Return upload_200) (Return trade_200)
    (Return JNull).

Definition not_hex_64 : string :=
  "not hexadecimal: zzzz !?-_~ GHIJK not hexadecimal: zzzz !?-_~ GH".

Definition no_options : option PumpFunTokenOptions.t := None.

(** The three requests of a launch of "T" in [happy_world]. *)
Definition happy_trace : Trace :=
  [Fetch (image_request "https://example.org/t.png");
   Fetch (upload_request None
            (final_form (metadata_fields "T" "TICK" "a token" no_options)
               (image_file png_bytes)));
   Fetch (trade_request
            {| publicKey := "wallet";
               action := "create";
               tokenMetadata :=
                 {| name := JStr "T"; symbol := JStr "TICK";
                    uri := JStr "ipfs://x" |};
               mint := Keypair.publicKey mock_keypair;
               denominatedInSol := "true";
               amount := num_0;
               slippage := num_10;
               priorityFee := num_0_0001;
               pool := "pump" |})].

(** The SDK refuses the signer. *)
Definition strict_sdk : Web3 :=
  {| VersionedTransaction := MockTransaction;
     deserialize := deserialize mock_sdk;
     sign := fun _ _ =>
       Throw (ErrorObject "Error" "Cannot sign with non signer key"
                [("logs", JArr [JStr "Program log: create"])]);
     serialize := serialize mock_sdk |}.

(** The trade endpoint refuses. *)
Definition refusing_world : World :=
  mock_world (Return image_200) (Return upload_200) (Return trade_400)
    (Return JNull).

(** The metadata endpoint is down. *)
Definition upload_down_world : World :=
  mock_world (Return image_200) (Return upload_503) (Return trade_200)
    (Return JNull).

(** The image cannot be fetched. *)
Definition offline_image_world : World :=
  mock_world (Throw network_error) (Return upload_200) (Return trade_200)
    (Return JNull).

(** The image URL answers 404 with an HTML page. *)
Definition missing_image_world : World :=
  mock_world (Return image_404) (Return upload_200) (Return trade_200)
    (Return JNull).

(** [new URL("127.0.0.1:7890")] *)
Definition invalid_url : Thrown :=
  ErrorObject "TypeError" "Invalid URL" [("code", JStr "ERR_INVALID_URL")].

(** Every endpoint answers as [image upload trade] say, and
    [IPFS_HTTP_PROXY] is "127.0.0.1:7890": not a URL, so no agent can be
    constructed. *)
Definition bad_proxy_world (image upload trade : Completion Response) : World :=
  {| fetch_answer := fetch_answer (mock_world image upload trade (Return JNull));
     getCoinMetadata_answer := fun _ _ => Return JNull;
     Keypair_generate_answer := fun _ => Return mock_keypair;
     IPFS_HTTP_PROXY := Some "127.0.0.1:7890";
     HttpsProxyAgent_answer := fun _ => Throw invalid_url |}.

(** The image URL answers 404 and [IPFS_HTTP_PROXY] is not a URL. *)
Definition missing_image_bad_proxy_world : World :=
  bad_proxy_world (Return image_404) (Return upload_200) (Return trade_200).

(** The payload for [mock_keypair], [mock_metadata] and no options. *)
Definition mock_payload : Payload :=
  {| publicKey := "wallet";
     action := "create";
     tokenMetadata :=
       {| name := JStr "T"; symbol := JStr "TICK"; uri := JStr "ipfs://x" |};
     mint := Keypair.publicKey mock_keypair;
     denominatedInSol := "true";
     amount := num_0;
     slippage := num_10;
     priorityFee := num_0_0001;
     pool := "pump" |}.

(** [{ initialBuyAmount: 1.5 (0x1.8p0), slippageBps: 10, priorityFee: 0.0001 }]
    with no social links *)
Definition some_options : option PumpFunTokenOptions.t :=
  Some {| PumpFunTokenOptions.twitter := None;
          PumpFunTokenOptions.telegram := None;
          PumpFunTokenOptions.website := None;
          PumpFunTokenOptions.initialBuyAmount :=
            Some (S754_finite false 6755399441055744 (-52));
          PumpFunTokenOptions.slippageBps := Some num_10;
          PumpFunTokenOptions.priorityFee := Some num_0_0001 |}.

(** [{ slippageBps: 0, priorityFee: 0 }] *)
Definition zero_options : option PumpFunTokenOptions.t :=
  Some {| PumpFunTokenOptions.twitter := None;
          PumpFunTokenOptions.telegram := None;
          PumpFunTokenOptions.website := None;
          PumpFunTokenOptions.initialBuyAmount := None;
          PumpFunTokenOptions.slippageBps := Some num_0;
          PumpFunTokenOptions.priorityFee := Some num_0 |}.

(* ================================================================== *)
(** * Further definitions: the RPC client, form lookups, requests *)
(* ================================================================== *)

(** [src/utils/sui.ts], line 3: the URL the [SuiClient] is built with,
    [process.env.SUI_RPC_URL || "https://fullnode.mainnet.sui.io:443"]. *)
Definition suiClient_url (SUI_RPC_URL : option string) : string :=
  match SUI_RPC_URL with
  | Some u =>
      if string_truthy u then u else "https://fullnode.mainnet.sui.io:443"
  | None => "https://fullnode.mainnet.sui.io:443"
  end.

(** [params.get(key)] on a [URLSearchParams]: the first value under [key]. *)
Fixpoint params_get (key : string) (params : list (string * string))
    : option string :=
  match params with
  | [] => None
  | (k, v) :: rest => if String.eqb k key then Some v else params_get key rest
  end.

(** [v == null]: [undefined] or [null]. *)
Definition nullish (v : JsValue) : bool :=
  match v with
  | JUndefined | JNull => true
  | _ => false
  end.

(** The first [try] block of [uploadMetadata]: fetch the image, read its
    body as a blob. *)
Definition image_step (w : World) (imageUrl : string) (tr : Trace)
    : Completion Blob :=
  match fetch_answer w tr (image_request imageUrl) with
  | Throw e => Throw e
  | Return imageResponse => blob imageResponse
  end.

(** The request that [uploadMetadata] posts once it holds the image and
    the agent. *)
Definition upload_request_for (tokenName tokenTicker description : string)
    (options : option PumpFunTokenOptions.t) (imageBlob : Blob)
    (agent : option string) : Request :=
  upload_request agent
    (final_form (metadata_fields tokenName tokenTicker description options)
       (image_file imageBlob)).

(** Every request of a trace, oldest first. *)
Fixpoint requests (tr : Trace) : list Request :=
  match tr with
  | [] => []
  | Fetch req :: rest => req :: requests rest
  | _ :: rest => requests rest
  end.

(** The new requests of a launch, read off the steps that completed. *)
Definition launch_requests (w : World)
    (publicKey tokenName tokenTicker description imageUrl : string)
    (options : option PumpFunTokenOptions.t) (tr : Trace) : list Request :=
  match Keypair_generate_answer w tr with
  | Throw _ => []
  | Return mintKeypair =>
      image_request imageUrl ::
      match image_step w imageUrl tr with
      | Throw _ => []
      | Return imageBlob =>
          match proxy_agent w with
          | Throw _ => []
          | Return agent =>
              upload_request_for tokenName tokenTicker description options
                imageBlob agent ::
              match fst (uploadMetadata w tokenName tokenTicker description
                           imageUrl options tr) with
              | Throw _ => []
              | Return m =>
                  match build_payload publicKey mintKeypair m options with
                  | Throw _ => []
                  | Return payload => [trade_request payload]
                  end
              end
          end
      end
  end.

(** [{}]: an options object with no member. *)
Definition empty_options : PumpFunTokenOptions.t :=
  {| PumpFunTokenOptions.twitter := None;
     PumpFunTokenOptions.telegram := None;
     PumpFunTokenOptions.website := None;
     PumpFunTokenOptions.initialBuyAmount := None;
     PumpFunTokenOptions.slippageBps := None;
     PumpFunTokenOptions.priorityFee := None |}.

(** [{ twitter: "", telegram: "t.me/tick", website: "" }] *)
Definition link_options : option PumpFunTokenOptions.t :=
  Some {| PumpFunTokenOptions.twitter := Some "";
          PumpFunTokenOptions.telegram := Some "t.me/tick";
          PumpFunTokenOptions.website := Some "";
          PumpFunTokenOptions.initialBuyAmount := None;
          PumpFunTokenOptions.slippageBps := None;
          PumpFunTokenOptions.priorityFee := None |}.

(** [happy_world] behind a proxy. *)
Definition proxied_world : World :=
  {| fetch_answer := fetch_answer happy_world;
     getCoinMetadata_answer := getCoinMetadata_answer happy_world;
     Keypair_generate_answer := Keypair_generate_answer happy_world;
     IPFS_HTTP_PROXY := Some "http://127.0.0.1:7890";
     HttpsProxyAgent_answer := fun _ => Return tt |}.

(** The metadata endpoint cannot be reached. *)
Definition upload_unreachable_world : World :=
  mock_world (Return image_200) (Throw network_error) (Return trade_200)
    (Return JNull).

(** The trade endpoint cannot be reached. *)
Definition trade_unreachable_world : World :=
  mock_world (Return image_200) (Return upload_200) (Throw network_error)
    (Return JNull).

(** No key can be generated. *)
Definition no_entropy_world : World :=
  {| fetch_answer := fetch_answer happy_world;
     getCoinMetadata_answer := getCoinMetadata_answer happy_world;
     Keypair_generate_answer := fun _ =>
       Throw (ErrorObject "Error" "crypto.getRandomValues must be defined" []);
     IPFS_HTTP_PROXY := None;
     HttpsProxyAgent_answer := fun _ => Return tt |}.

(* ================================================================== *)
(** * Strings: prefixes and substrings *)
(* ================================================================== *)

Lemma startsWith_app (s t : string) : startsWith (s ++ t) s = true.
Proof.
  induction s as [|c s IH]; simpl; [reflexivity|].
  rewrite Ascii.eqb_refl. exact IH.
Qed.

Lemma includes_here (s t : string) : startsWith s t = true -> includes s t = true.
Proof.
  intros H. destruct s; simpl; rewrite H; reflexivity.
Qed.

Lemma includes_app (pre t post : string) : includes (pre ++ t ++ post) t = true.
Proof.
  induction pre as [|c pre IH].
  - change (includes (t ++ post) t = true).
    apply includes_here, startsWith_app.
  - simpl. rewrite IH. apply orb_true_r.
Qed.

Lemma includes_skip (pre s t : string) :
  includes s t = true -> includes (pre ++ s) t = true.
Proof.
  intros H. induction pre as [|c pre IH]; [exact H|].
  simpl. rewrite IH. apply orb_true_r.
Qed.

Lemma includes_prefix (t post : string) : includes (t ++ post) t = true.
Proof. exact (includes_app "" t post). Qed.

Lemma startsWith_refl (t : string) : startsWith t t = true.
Proof.
  induction t as [|c t IH]; simpl; [reflexivity|].
  rewrite Ascii.eqb_refl. exact IH.
Qed.

Lemma includes_suffix (pre t : string) : includes (pre ++ t) t = true.
Proof.
  induction pre as [|c pre IH].
  - change (includes t t = true).
    apply includes_here, startsWith_refl.
  - simpl. rewrite IH. apply orb_true_r.
Qed.

(* ================================================================== *)
(** * The address validator *)
(* ================================================================== *)

Lemma validateSuiAddress_cases (s : string) :
  validateSuiAddress s =
    if startsWith s "0x" && (String.length s =? 66)%nat
    then Return tt
    else Throw (new_Error (s ++ " is not a valid Sui address.")).
Proof.
  unfold validateSuiAddress.
  destruct (startsWith s "0x"), (String.length s =? 66)%nat; reflexivity.
Qed.

(** C3. [validateSuiAddress s] returns normally exactly when [s] starts
    with "0x" and has 66 characters; otherwise it throws an [Error] whose
    message contains [s]. *)
Theorem validateSuiAddress_spec (s : string) :
  (validateSuiAddress s = Return tt <->
     startsWith s "0x" = true /\ String.length s = 66) /\
  (~ (startsWith s "0x" = true /\ String.length s = 66) ->
     exists msg, validateSuiAddress s = Throw (new_Error msg) /\
                 includes msg s = true).
Proof.
  rewrite validateSuiAddress_cases.
  destruct (startsWith s "0x") eqn:Hp; simpl.
  - destruct (Nat.eqb_spec (String.length s) 66) as [Hl|Hl].
    + split; [tauto|]. intros H. exfalso. apply H. auto.
    + split.
      * split; [discriminate|]. intros [_ H]. contradiction.
      * intros _. eexists. split; [reflexivity|]. apply includes_prefix.
  - split.
    + split; [discriminate|]. intros [H _]. discriminate.
    + intros _. eexists. split; [reflexivity|]. apply includes_prefix.
Qed.

Lemma validateSuiAddress_spec_witness :
  (validateSuiAddress "0x12" = Return tt <->
     startsWith "0x12" "0x" = true /\ String.length "0x12" = 66) /\
  exists msg, validateSuiAddress "0x12" = Throw (new_Error msg) /\
              includes msg "0x12" = true.
Proof.
  split.
  - exact (proj1 (validateSuiAddress_spec "0x12")).
  - apply (proj2 (validateSuiAddress_spec "0x12")).
    simpl. intros [_ H]. discriminate H.
Defined.

Lemma length_app (s t : string) :
  String.length (s ++ t) = String.length s + String.length t.
Proof. induction s; simpl; congruence. Qed.

(** C9. Any 64 characters after "0x" are accepted, hexadecimal or not:
    the outcome depends on the prefix test and on the length only. *)
Theorem validateSuiAddress_no_charset_check (rest : string) :
  String.length rest = 64 ->
  validateSuiAddress ("0x" ++ rest) = Return tt /\
  (forall s' : string,
     startsWith s' "0x" = true -> String.length s' = 66 ->
     validateSuiAddress s' = validateSuiAddress ("0x" ++ rest)).
Proof.
  intros H.
  assert (E : forall s', startsWith s' "0x" = true -> String.length s' = 66 ->
                         validateSuiAddress s' = Return tt).
  { intros s' Hp Hl. rewrite validateSuiAddress_cases, Hp, Hl. reflexivity. }
  assert (E0 : validateSuiAddress ("0x" ++ rest) = Return tt).
  { apply E.
    - apply startsWith_app.
    - rewrite length_app, H. reflexivity. }
  split; [exact E0|]. intros s' Hp Hl. rewrite E0. apply E; assumption.
Qed.

Lemma validateSuiAddress_no_charset_check_witness :
  validateSuiAddress ("0x" ++ not_hex_64) = Return tt.
Proof.
  destruct (validateSuiAddress_no_charset_check not_hex_64) as [H _];
    [reflexivity | exact H].
Defined.

(* ================================================================== *)
(** * The coin-type validator *)
(* ================================================================== *)

(** C4. [validateSuiCoinType] throws exactly when the lookup throws or
    answers a falsy value; what it throws is then always the same
    [Error], whatever the lookup threw; on a truthy answer it returns. *)
Theorem validateSuiCoinType_spec (w : World) (coinType : string) (tr : Trace) :
  let outcome := fst (validateSuiCoinType w coinType tr) in
  let lookup := getCoinMetadata_answer w tr coinType in
  let generic := new_Error (coinType ++ " is not a valid Sui coin type.") in
  (throws outcome = true <->
     throws lookup = true \/ exists v, lookup = Return v /\ truthy v = false) /\
  (throws outcome = true -> outcome = Throw generic) /\
  (forall v, lookup = Return v -> truthy v = true -> outcome = Return tt).
Proof.
  unfold validateSuiCoinType, try_catch, bind, getCoinMetadata, throw, ret.
  cbn zeta.
  destruct (getCoinMetadata_answer w tr coinType) as [v|e]; simpl.
  - destruct (truthy v) eqn:Ht; simpl.
    + repeat split; try discriminate.
      intros [H|[v' [H1 H2]]]; [discriminate|]. congruence.
    + repeat split; try reflexivity.
      * intros _. right. exists v. auto.
      * intros v' H1 H2. congruence.
  - repeat split; auto. discriminate.
Qed.

(* ================================================================== *)
(** * Running the monad *)
(* ================================================================== *)

Ltac run :=
  unfold bind, try_catch, settle, ret, throw, fetch, Keypair_generate,
    console_error in *; cbn beta iota zeta in *.

(** [uploadMetadata], step by step. *)
Lemma uploadMetadata_run (w : World)
    (tokenName tokenTicker description imageUrl : string)
    (options : option PumpFunTokenOptions.t) (tr : Trace) :
  uploadMetadata w tokenName tokenTicker description imageUrl options tr =
  let tr1 := tr ++ [Fetch (image_request imageUrl)] in
  let failed e := (Throw (new_Error ("Failed to fetch image: " ++ toString e)), tr1) in
  match fetch_answer w tr (image_request imageUrl) with
  | Throw e => failed e
  | Return imageResponse =>
      match blob imageResponse with
      | Throw e => failed e
      | Return imageBlob =>
          match proxy_agent w with
          | Throw e => (Throw e, tr1)
          | Return agent =>
              let req :=
                upload_request agent
                  (final_form
                     (metadata_fields tokenName tokenTicker description options)
                     (image_file imageBlob)) in
              let tr2 := tr1 ++ [Fetch req] in
              match fetch_answer w tr1 req with
              | Throw e =>
                  (Throw (new_Error ("Failed to upload metadata: " ++ toString e)),
                   tr2)
              | Return r =>
                  if ok r then (json r, tr2)
                  else (Throw (new_Error ("Metadata upload failed: "
                                          ++ statusText r)), tr2)
              end
          end
      end
  end.
Proof.
  unfold uploadMetadata. run.
  destruct (fetch_answer w tr (image_request imageUrl)) as [imageResponse|e];
    [|reflexivity].
  destruct (blob imageResponse) as [imageBlob|e]; [|reflexivity].
  destruct (proxy_agent w) as [agent|e]; [|reflexivity].
  match goal with |- context [fetch_answer w ?t ?r] =>
    destruct (fetch_answer w t r) as [r0|e] end; [|reflexivity].
  destruct (ok r0); reflexivity.
Qed.

(** [createTokenTransaction], step by step. *)
Lemma createTokenTransaction_run (w : World) (publicKey : string)
    (mintKeypair : Keypair.t) (metadataResponse : JsValue)
    (options : option PumpFunTokenOptions.t) (tr : Trace) :
  createTokenTransaction w publicKey mintKeypair metadataResponse options tr =
  match build_payload publicKey mintKeypair metadataResponse options with
  | Throw e => (Throw e, tr)
  | Return payload =>
      let tr1 := tr ++ [Fetch (trade_request payload)] in
      match fetch_answer w tr (trade_request payload) with
      | Throw e => (Throw e, tr1)
      | Return response =>
          if ok response then (Return response, tr1)
          else
            match text response with
            | Throw e => (Throw e, tr1)
            | Return errorText =>
                (Throw (new_Error ("Transaction creation failed: "
                                   ++ decimal (status response) ++ " - "
                                   ++ errorText)), tr1)
            end
      end
  end.
Proof.
  unfold createTokenTransaction. run.
  destruct (build_payload publicKey mintKeypair metadataResponse options)
    as [payload|e]; [|reflexivity].
  destruct (fetch_answer w tr (trade_request payload)) as [response|e];
    [|reflexivity].
  destruct (ok response); [reflexivity|].
  destruct (text response); reflexivity.
Qed.

Lemma ok_2xx (r : Response) : ok r = true <-> (200 <= status r <= 299)%N.
Proof.
  unfold ok. rewrite andb_true_iff, !N.leb_le. tauto.
Qed.

Lemma not_ok_non_2xx (r : Response) :
  ok r = false <-> ~ (200 <= status r <= 299)%N.
Proof.
  rewrite <- ok_2xx. destruct (ok r); split; intros H; congruence.
Qed.

(* ================================================================== *)
(** * The transaction request builder *)
(* ================================================================== *)

(** C6. When the trade endpoint answers with a status outside 200-299,
    [createTokenTransaction] throws, and the message of the [Error] holds
    the decimal status and the text of the body; on a status within
    200-299 it returns the response itself. *)
Theorem createTokenTransaction_status (w : World) (publicKey : string)
    (mintKeypair : Keypair.t) (metadataResponse : JsValue)
    (options : option PumpFunTokenOptions.t) (tr : Trace)
    (payload : Payload) (response : Response) :
  build_payload publicKey mintKeypair metadataResponse options = Return payload ->
  fetch_answer w tr (trade_request payload) = Return response ->
  let outcome :=
    fst (createTokenTransaction w publicKey mintKeypair metadataResponse options tr) in
  (~ (200 <= status response <= 299)%N ->
     throws outcome = true /\
     forall errorText, text response = Return errorText ->
       exists msg, outcome = Throw (new_Error msg) /\
                   includes msg (decimal (status response)) = true /\
                   includes msg errorText = true) /\
  ((200 <= status response <= 299)%N -> outcome = Return response).
Proof.
  intros Hp Hf. cbn zeta.
  rewrite createTokenTransaction_run, Hp. cbn zeta. rewrite Hf.
  split.
  - intros H. apply not_ok_non_2xx in H. rewrite H. split.
    + destruct (text response); reflexivity.
    + intros errorText Ht. rewrite Ht. eexists. split; [reflexivity|]. split.
      * apply includes_app.
      * apply includes_skip, includes_skip, includes_suffix.
  - intros H. apply ok_2xx in H. rewrite H. reflexivity.
Qed.

Lemma createTokenTransaction_status_witness :
  exists msg,
    fst (createTokenTransaction refusing_world "wallet" mock_keypair
           mock_metadata no_options []) = Throw (new_Error msg) /\
    includes msg "400" = true /\ includes msg "bad" = true.
Proof.
  destruct (createTokenTransaction_status refusing_world "wallet" mock_keypair
              mock_metadata no_options [] mock_payload trade_400
              eq_refl eq_refl) as [H _].
  destruct H as [_ H].
  - simpl. lia.
  - exact (H "bad" eq_refl).
Defined.

(* ================================================================== *)
(** * The metadata uploader *)
(* ================================================================== *)

Lemma posts_app (a b : Trace) : posts (a ++ b) = posts a ++ posts b.
Proof.
  induction a as [|ev a IH]; [reflexivity|].
  simpl. destruct ev as [req| |]; try exact IH.
  destruct (method req) as [m|]; [|exact IH].
  destruct (String.eqb m "POST"); [|exact IH].
  simpl. rewrite IH. reflexivity.
Qed.

Lemma fold_append_map {K V V'} (f : K * V -> string * V') (l : list (K * V))
    (acc : list (string * V')) :
  fold_left (fun acc kv => append acc (fst (f kv)) (snd (f kv))) l acc =
  acc ++ map f l.
Proof.
  revert acc. induction l as [|kv l IH]; intros acc; simpl.
  - symmetry. apply app_nil_r.
  - rewrite IH. unfold append. rewrite <- app_assoc. simpl.
    destruct (f kv). reflexivity.
Qed.

(** [finalFormData] is the text fields followed by the file. *)
Lemma final_form_entries (formData : list (string * string)) (file : File) :
  final_form formData file =
  map (fun kv => (fst kv, FormString (snd kv))) formData ++ [("file", FormFile file)].
Proof.
  unfold final_form.
  rewrite (fold_append_map (fun kv => (fst kv, FormString (snd kv)))).
  reflexivity.
Qed.

Lemma metadata_fields_keys (tokenName tokenTicker description : string)
    (options : option PumpFunTokenOptions.t) :
  filter (fun kv : string * FormValue => String.eqb (fst kv) "file")
    (map (fun kv => (fst kv, FormString (snd kv)))
       (metadata_fields tokenName tokenTicker description options)) = [].
Proof.
  unfold metadata_fields, append_if_present, optional.
  destruct options as [o|]; [|reflexivity].
  destruct (PumpFunTokenOptions.twitter o) as [s1|];
    [destruct (string_truthy s1)|];
    (destruct (PumpFunTokenOptions.telegram o) as [s2|];
      [destruct (string_truthy s2)|]);
    (destruct (PumpFunTokenOptions.website o) as [s3|];
      [destruct (string_truthy s3)|]);
    reflexivity.
Qed.

Lemma form_file_final_form (tokenName tokenTicker description : string)
    (options : option PumpFunTokenOptions.t) (file : File) :
  form_file
    (final_form (metadata_fields tokenName tokenTicker description options) file)
  = Some file.
Proof.
  rewrite final_form_entries. unfold form_file.
  rewrite filter_app, metadata_fields_keys. reflexivity.
Qed.

(** C7. When the metadata endpoint answers the POST with a status
    outside 200-299, [uploadMetadata] throws an [Error] whose message
    contains the status text; on a status within 200-299 its outcome is
    the parsed JSON body, [response.json()].  The endpoint is asked only
    after the image has been read and the agent of line 63, if any, has
    been constructed. *)
Theorem uploadMetadata_status (w : World)
    (tokenName tokenTicker description imageUrl : string)
    (options : option PumpFunTokenOptions.t) (tr : Trace)
    (imageResponse : Response) (imageBlob : Blob) (agent : option string)
    (response : Response) :
  fetch_answer w tr (image_request imageUrl) = Return imageResponse ->
  blob imageResponse = Return imageBlob ->
  proxy_agent w = Return agent ->
  fetch_answer w (tr ++ [Fetch (image_request imageUrl)])
    (upload_request agent
       (final_form (metadata_fields tokenName tokenTicker description options)
          (image_file imageBlob))) = Return response ->
  let outcome :=
    fst (uploadMetadata w tokenName tokenTicker description imageUrl options tr) in
  (~ (200 <= status response <= 299)%N ->
     exists msg, outcome = Throw (new_Error msg) /\
                 includes msg (statusText response) = true) /\
  ((200 <= status response <= 299)%N -> outcome = json response).
Proof.
  intros Hi Hb Ha Hu. cbn zeta.
  rewrite uploadMetadata_run. cbn zeta. rewrite Hi, Hb, Ha, Hu.
  split; intros H.
  - apply not_ok_non_2xx in H. rewrite H.
    eexists. split; [reflexivity|]. apply includes_suffix.
  - apply ok_2xx in H. rewrite H. reflexivity.
Qed.

Lemma uploadMetadata_status_witness :
  (exists msg,
     fst (uploadMetadata upload_down_world "T" "TICK" "a token"
            "https://example.org/t.png" no_options [])
       = Throw (new_Error msg) /\
     includes msg "Service Unavailable" = true) /\
  fst (uploadMetadata proxied_world "T" "TICK" "a token"
         "https://example.org/t.png" no_options [])
    = Return mock_metadata.
Proof.
  split.
  - destruct (uploadMetadata_status upload_down_world "T" "TICK" "a token"
                "https://example.org/t.png" no_options [] image_200 png_bytes
                None upload_503 eq_refl eq_refl eq_refl eq_refl) as [H _].
    apply H. simpl. lia.
  - destruct (uploadMetadata_status proxied_world "T" "TICK" "a token"
                "https://example.org/t.png" no_options [] image_200 png_bytes
                (Some "http://127.0.0.1:7890") upload_200
                eq_refl eq_refl eq_refl eq_refl) as [_ H].
    apply H. simpl. lia.
Defined.

(** C8. When fetching the image fails (the fetch or the reading of its
    body throws), [uploadMetadata] throws an [Error] whose message starts
    with "Failed to fetch image"; the only call made is the image fetch,
    and no POST has been sent. *)
Theorem uploadMetadata_image_failure (w : World)
    (tokenName tokenTicker description imageUrl : string)
    (options : option PumpFunTokenOptions.t) (tr : Trace) (e : Thrown) :
  fetch_answer w tr (image_request imageUrl) = Throw e \/
  (exists r, fetch_answer w tr (image_request imageUrl) = Return r /\
             blob r = Throw e) ->
  let run := uploadMetadata w tokenName tokenTicker description imageUrl options tr in
  exists msg,
    fst run = Throw (new_Error msg) /\
    startsWith msg "Failed to fetch image" = true /\
    snd run = tr ++ [Fetch (image_request imageUrl)] /\
    posts (snd run) = posts tr.
Proof.
  intros H. cbn zeta. rewrite uploadMetadata_run. cbn zeta.
  exists ("Failed to fetch image: " ++ toString e)%string.
  assert (Hp : posts (tr ++ [Fetch (image_request imageUrl)]) = posts tr).
  { rewrite posts_app. simpl. apply app_nil_r. }
  destruct H as [H|[r [H1 H2]]].
  - rewrite H. simpl. auto.
  - rewrite H1, H2. simpl. auto.
Qed.

Lemma uploadMetadata_image_failure_witness :
  exists msg,
    fst (uploadMetadata offline_image_world "T" "TICK" "a token"
           "https://example.org/t.png" no_options [])
      = Throw (new_Error msg) /\
    startsWith msg "Failed to fetch image" = true /\
    snd (uploadMetadata offline_image_world "T" "TICK" "a token"
           "https://example.org/t.png" no_options [])
      = [] ++ [Fetch (image_request "https://example.org/t.png")] /\
    posts (snd (uploadMetadata offline_image_world "T" "TICK" "a token"
                  "https://example.org/t.png" no_options [])) = posts [].
Proof.
  apply (uploadMetadata_image_failure offline_image_world "T" "TICK" "a token"
           "https://example.org/t.png" no_options [] network_error).
  left. reflexivity.
Defined.

Lemma proxy_agent_Return (w : World) (agent : option string) :
  proxy_agent w = Return agent ->
  agent = if present (IPFS_HTTP_PROXY w) then IPFS_HTTP_PROXY w else None.
Proof.
  unfold proxy_agent, present.
  destruct (IPFS_HTTP_PROXY w) as [proxy|]; [|congruence].
  destruct (string_truthy proxy); [|congruence].
  destruct (HttpsProxyAgent_answer w proxy); congruence.
Qed.

(** C10, as the code has it.  A non-2xx answer to the image fetch is not
    an image-fetch failure: the bytes of that answer's body become the
    content of the [file] part.  The POST to the metadata endpoint is
    then sent, with that file, when no agent is needed or the agent of
    line 63 is constructed; when constructing the agent throws, that
    value is thrown as it is and only the image fetch has been made. *)
Theorem uploadMetadata_image_status_ignored (w : World)
    (tokenName tokenTicker description imageUrl : string)
    (options : option PumpFunTokenOptions.t) (tr : Trace)
    (imageResponse : Response) (imageBlob : Blob) :
  fetch_answer w tr (image_request imageUrl) = Return imageResponse ->
  ~ (200 <= status imageResponse <= 299)%N ->
  blob imageResponse = Return imageBlob ->
  let run := uploadMetadata w tokenName tokenTicker description imageUrl options tr in
  (forall agent, proxy_agent w = Return agent ->
     exists form,
       snd run = tr ++ [Fetch (image_request imageUrl);
                        Fetch (upload_request agent form)] /\
       posts (snd run) = posts tr ++ [upload_request agent form] /\
       form_file form =
         Some {| bits := [imageBlob]; filename := "token_image.png";
                 type := "image/png" |} /\
       fst run =
         match fetch_answer w (tr ++ [Fetch (image_request imageUrl)])
                 (upload_request agent form) with
         | Throw e => Throw (new_Error ("Failed to upload metadata: " ++ toString e))
         | Return r =>
             if ok r then json r
             else Throw (new_Error ("Metadata upload failed: " ++ statusText r))
         end) /\
  (forall e, proxy_agent w = Throw e ->
     run = (Throw e, tr ++ [Fetch (image_request imageUrl)]) /\
     posts (snd run) = posts tr).
Proof.
  intros Hi _ Hb. cbn zeta. rewrite uploadMetadata_run. cbn zeta.
  rewrite Hi, Hb. split.
  - intros agent Ha. rewrite Ha.
    eexists. repeat split.
    + match goal with |- context [fetch_answer w ?t ?r] =>
        destruct (fetch_answer w t r) as [r0|e0] end;
        [destruct (ok r0)|]; simpl; rewrite <- app_assoc; reflexivity.
    + match goal with |- context [fetch_answer w ?t ?r] =>
        destruct (fetch_answer w t r) as [r0|e0] end;
        [destruct (ok r0)|]; simpl; rewrite !posts_app; simpl;
        rewrite app_nil_r; reflexivity.
    + apply form_file_final_form.
    + match goal with |- context [fetch_answer w ?t ?r] =>
        destruct (fetch_answer w t r) as [r0|e0] end;
        [destruct (ok r0)|]; reflexivity.
  - intros e Ha. rewrite Ha. split; [reflexivity|].
    cbn [snd]. rewrite posts_app. simpl. apply app_nil_r.
Qed.

Lemma uploadMetadata_image_status_ignored_witness :
  let run :=
    uploadMetadata missing_image_world "T" "TICK" "a token"
      "https://example.org/t.png" no_options [] in
  exists form,
    snd run = [] ++ [Fetch (image_request "https://example.org/t.png");
                     Fetch (upload_request None form)] /\
    posts (snd run) = posts [] ++ [upload_request None form] /\
    form_file form =
      Some {| bits := [html_404]; filename := "token_image.png";
              type := "image/png" |} /\
    fst run = Return mock_metadata.
Proof.
  destruct (uploadMetadata_image_status_ignored missing_image_world "T" "TICK"
              "a token" "https://example.org/t.png" no_options [] image_404
              html_404 eq_refl) as [H _].
  - simpl. lia.
  - reflexivity.
  - exact (H None eq_refl).
Defined.

(** C10 does not hold as worded.  With [IPFS_HTTP_PROXY] set to
    "127.0.0.1:7890" and an image URL that answers 404, the image step
    passes, but [new HttpsProxyAgent] throws: [uploadMetadata] throws that
    [TypeError] and no POST is sent. *)
Lemma uploadMetadata_image_status_ignored_counterexample :
  fetch_answer missing_image_bad_proxy_world []
    (image_request "https://example.org/t.png") = Return image_404 /\
  status image_404 = 404%N /\
  blob image_404 = Return html_404 /\
  uploadMetadata missing_image_bad_proxy_world "T" "TICK" "a token"
    "https://example.org/t.png" no_options []
  = (Throw invalid_url, [Fetch (image_request "https://example.org/t.png")]) /\
  posts (snd (uploadMetadata missing_image_bad_proxy_world "T" "TICK" "a token"
                "https://example.org/t.png" no_options [])) = [].
Proof. repeat split. Qed.

(* ================================================================== *)
(** * The payload of the transaction request *)
(* ================================================================== *)

Lemma number_or_provided (x : option number) (d v : number) :
  x = Some v -> number_truthy v = true -> number_or x d = v.
Proof. intros -> H. simpl. rewrite H. reflexivity. Qed.

Lemma number_or_default (x : option number) (d : number) :
  x = None \/ (exists v, x = Some v /\ number_truthy v = false) ->
  number_or x d = d.
Proof.
  intros [->|[v [-> H]]]; simpl; [reflexivity|]. rewrite H. reflexivity.
Qed.

Lemma js_get_throws (v : JsValue) (key : string) :
  throws (js_get v key) = nullish v.
Proof. destruct v; reflexivity. Qed.

Lemma js_get_TypeError (v : JsValue) (key : string) (e : Thrown) :
  js_get v key = Throw e -> exists msg, e = new_TypeError msg.
Proof.
  destruct v; simpl; intros H; inversion H; eexists; reflexivity.
Qed.

Lemma js_get_twice (v x : JsValue) (key key' : string) :
  js_get v key = Return x -> throws (js_get v key') = false.
Proof. destruct v; simpl; intros H; try discriminate; reflexivity. Qed.

Lemma js_get_defined (v : JsValue) (key : string) :
  nullish v = false -> exists x, js_get v key = Return x.
Proof. destruct v; simpl; intros H; try discriminate; eexists; reflexivity. Qed.

Lemma js_get_nullish (v : JsValue) (key : string) :
  nullish v = true -> exists msg, js_get v key = Throw (new_TypeError msg).
Proof. destruct v; simpl; intros H; try discriminate; eexists; reflexivity. Qed.

Lemma js_get_Return_defined (v x : JsValue) (key : string) :
  js_get v key = Return x -> nullish v = false.
Proof. destruct v; simpl; intros H; try discriminate; reflexivity. Qed.

(** C2, as the code has it.  When [m.metadata] is neither [undefined] nor
    [null], [createTokenTransaction] constructs exactly the payload of
    the specification and hands it to [JSON.stringify] as the body of its
    one request, except that an option counts as provided only when it is
    truthy: [amount], [slippage] and [priorityFee] take the option's
    value when it is a number other than [0], [-0] and [NaN], and the
    defaults [0], [10] and [0.0001] when the option is absent or is one of
    these.  When [m] or [m.metadata] is [undefined] or [null], it throws a
    [TypeError] and sends nothing. *)
Theorem createTokenTransaction_payload (w : World) (publicKey : string)
    (mintKeypair : Keypair.t) (m : JsValue)
    (options : option PumpFunTokenOptions.t) (tr : Trace) :
  (forall metadata,
     js_get m "metadata" = Return metadata -> nullish metadata = false ->
     exists name symbol uri payload,
       js_get metadata "name" = Return name /\
       js_get metadata "symbol" = Return symbol /\
       js_get m "metadataUri" = Return uri /\
       build_payload publicKey mintKeypair m options = Return payload /\
       snd (createTokenTransaction w publicKey mintKeypair m options tr)
         = tr ++ [Fetch (trade_request payload)] /\
       body (trade_request payload) = JsonBody payload /\
       payload =
         {| publicKey := publicKey;
            action := "create";
            tokenMetadata := {| name := name; symbol := symbol; uri := uri |};
            mint := Keypair.publicKey mintKeypair;
            denominatedInSol := "true";
            amount := amount payload;
            slippage := slippage payload;
            priorityFee := priorityFee payload;
            pool := "pump" |} /\
       (forall v, optional options PumpFunTokenOptions.initialBuyAmount = Some v ->
                  number_truthy v = true -> amount payload = v) /\
       (optional options PumpFunTokenOptions.initialBuyAmount = None \/
        (exists v, optional options PumpFunTokenOptions.initialBuyAmount = Some v /\
                   number_truthy v = false) -> amount payload = num_0) /\
       (forall v, optional options PumpFunTokenOptions.slippageBps = Some v ->
                  number_truthy v = true -> slippage payload = v) /\
       (optional options PumpFunTokenOptions.slippageBps = None \/
        (exists v, optional options PumpFunTokenOptions.slippageBps = Some v /\
                   number_truthy v = false) -> slippage payload = num_10) /\
       (forall v, optional options PumpFunTokenOptions.priorityFee = Some v ->
                  number_truthy v = true -> priorityFee payload = v) /\
       (optional options PumpFunTokenOptions.priorityFee = None \/
        (exists v, optional options PumpFunTokenOptions.priorityFee = Some v /\
                   number_truthy v = false) -> priorityFee payload = num_0_0001)) /\
  (nullish m = true \/
   (exists metadata, js_get m "metadata" = Return metadata /\
                     nullish metadata = true) ->
   exists msg,
     createTokenTransaction w publicKey mintKeypair m options tr
       = (Throw (new_TypeError msg), tr)).
Proof.
  split.
  - intros metadata Hm Hd.
    destruct (js_get_defined metadata "name" Hd) as [name Hn].
    destruct (js_get_defined metadata "symbol" Hd) as [symbol Hs].
    destruct (js_get_defined m "metadataUri" (js_get_Return_defined _ _ _ Hm))
      as [uri Hu].
    exists name, symbol, uri.
    rewrite createTokenTransaction_run. unfold build_payload.
    rewrite Hm, Hn, Hs, Hu. cbn zeta.
    eexists. split; [reflexivity|]. split; [reflexivity|].
    split; [reflexivity|]. split; [reflexivity|]. split.
    + match goal with |- context [fetch_answer w ?t ?r] =>
        destruct (fetch_answer w t r) as [r0|e0] end;
        [destruct (ok r0); [|destruct (text r0)]|]; reflexivity.
    + split; [reflexivity|]. split; [reflexivity|].
      cbn [amount slippage priorityFee].
      repeat split; intros;
        first [ eapply number_or_provided; eassumption
              | apply number_or_default; assumption ].
  - intros H. rewrite createTokenTransaction_run. unfold build_payload.
    destruct H as [H|[metadata [Hm H]]].
    + destruct (js_get_nullish m "metadata" H) as [msg ->].
      exists msg. reflexivity.
    + rewrite Hm. destruct (js_get_nullish metadata "name" H) as [msg ->].
      exists msg. reflexivity.
Qed.

Lemma createTokenTransaction_payload_witness :
  (exists payload,
     snd (createTokenTransaction happy_world "wallet" mock_keypair mock_metadata
            some_options [])
       = [] ++ [Fetch (trade_request payload)] /\
     payload =
       specified_payload "wallet" mock_keypair (JStr "T") (JStr "TICK")
         (JStr "ipfs://x") some_options) /\
  (exists msg,
     createTokenTransaction happy_world "wallet" mock_keypair JNull some_options []
       = (Throw (new_TypeError msg), [])).
Proof.
  destruct (createTokenTransaction_payload happy_world "wallet" mock_keypair
              mock_metadata some_options []) as [H _].
  destruct (createTokenTransaction_payload happy_world "wallet" mock_keypair
              JNull some_options []) as [_ H0].
  split; [|apply H0; left; reflexivity].
  destruct (H _ eq_refl eq_refl)
    as [name [symbol [uri [payload [Hn [Hs [Hu [_ [Ht [_ [Hp [Ha [_ [Hsl [_ [Hf _]]]]]]]]]]]]]]]].
  exists payload. split; [exact Ht|].
  rewrite Hp, (Ha _ eq_refl eq_refl), (Hsl _ eq_refl eq_refl),
    (Hf _ eq_refl eq_refl).
  simpl in Hn, Hs, Hu. inversion Hn. inversion Hs. inversion Hu.
  reflexivity.
Defined.

(** C2 does not hold as worded.  With [{ slippageBps: 0, priorityFee: 0 }]
    the request carries [slippage: 10] and [priorityFee: 0.0001], not the
    zeros that were provided; and for an upload result without a
    [metadata] member no payload is built, a [TypeError] is thrown. *)
Lemma createTokenTransaction_payload_counterexample :
  (exists payload,
     snd (createTokenTransaction happy_world "wallet" mock_keypair mock_metadata
            zero_options []) = [Fetch (trade_request payload)] /\
     slippage payload = num_10 /\
     priorityFee payload = num_0_0001 /\
     optional zero_options PumpFunTokenOptions.slippageBps = Some num_0 /\
     optional zero_options PumpFunTokenOptions.priorityFee = Some num_0 /\
     payload <>
       specified_payload "wallet" mock_keypair (JStr "T") (JStr "TICK")
         (JStr "ipfs://x") zero_options) /\
  createTokenTransaction happy_world "wallet" mock_keypair (JObj []) no_options []
    = (Throw (new_TypeError
                "Cannot read properties of undefined (reading 'name')"), []).
Proof.
  split; [|reflexivity].
  eexists. split; [reflexivity|].
  repeat split. intros H. discriminate H.
Qed.

(* ================================================================== *)
(** * [base64_decode] undoes [btoa] *)
(* ================================================================== *)

Lemma sextet_In (n : N) : (n < 64)%N -> In n sextets.
Proof.
  intros H. unfold sextets. rewrite <- (N2Nat.id n).
  apply in_map, in_seq. lia.
Qed.

Lemma sextet_table :
  forallb (fun n =>
             match char_sextet (sextet_char n) with
             | Some m => N.eqb m n
             | None => false
             end) sextets = true.
Proof. vm_compute. reflexivity. Qed.

Lemma char_sextet_sextet_char (n : N) :
  (n < 64)%N -> char_sextet (sextet_char n) = Some n.
Proof.
  intros H. apply sextet_In in H.
  pose proof (proj1 (forallb_forall _ _) sextet_table n H) as E.
  cbv beta in E. destruct (char_sextet (sextet_char n)) as [m|]; [|discriminate].
  apply N.eqb_eq in E. congruence.
Qed.

Lemma char_sextet_pad : char_sextet "=" = None.
Proof. reflexivity. Qed.

Lemma base64_decode_group (c0 c1 c2 c3 : ascii) (rest : string) :
  base64_decode (String c0 (String c1 (String c2 (String c3 rest)))) =
  match char_sextet c0, char_sextet c1 with
  | Some s0, Some s1 =>
      let a := ascii_of_N (s0 * 4 + s1 / 16) in
      match char_sextet c2, char_sextet c3 with
      | Some s2, Some s3 =>
          match base64_decode rest with
          | Some tl =>
              Some (String a
                   (String (ascii_of_N ((s1 mod 16) * 16 + s2 / 4))
                   (String (ascii_of_N ((s2 mod 4) * 64 + s3)) tl)))
          | None => None
          end
      | Some s2, None =>
          if Ascii.eqb c3 "=" && String.eqb rest ""
          then Some (String a
                    (String (ascii_of_N ((s1 mod 16) * 16 + s2 / 4)) ""))
          else None
      | None, _ =>
          if Ascii.eqb c2 "=" && Ascii.eqb c3 "=" && String.eqb rest ""
          then Some (String a "")
          else None
      end
  | _, _ => None
  end%N.
Proof. reflexivity. Qed.

Section Regroup.
Variables x y z : N.
Hypothesis Hx : (x < 256)%N.
Hypothesis Hy : (y < 256)%N.
Hypothesis Hz : (z < 256)%N.

Ltac euclid := zify; Z.to_euclidean_division_equations; lia.

Lemma sextet0_lt : (x / 4 < 64)%N.
Proof. clear Hy Hz. euclid. Qed.

Lemma sextet1_lt : ((x mod 4) * 16 + y / 16 < 64)%N.
Proof. clear Hz. euclid. Qed.

Lemma sextet2_lt : ((y mod 16) * 4 + z / 64 < 64)%N.
Proof. clear Hx. euclid. Qed.

Lemma sextet3_lt : (z mod 64 < 64)%N.
Proof. clear Hx Hy Hz. euclid. Qed.

Lemma octet0 : (x / 4 * 4 + ((x mod 4) * 16 + y / 16) / 16 = x)%N.
Proof. clear Hz. euclid. Qed.

Lemma octet1 :
  ((((x mod 4) * 16 + y / 16) mod 16) * 16 + ((y mod 16) * 4 + z / 64) / 4 = y)%N.
Proof. euclid. Qed.

Lemma octet2 : ((((y mod 16) * 4 + z / 64) mod 4) * 64 + z mod 64 = z)%N.
Proof. clear Hx. euclid. Qed.

(** The last group of one or two bytes. *)
Lemma sextet1_pad_lt : ((x mod 4) * 16 < 64)%N.
Proof. clear Hx Hy Hz. euclid. Qed.

Lemma sextet2_pad_lt : ((y mod 16) * 4 < 64)%N.
Proof. clear Hx Hy Hz. euclid. Qed.

Lemma octet0_pad : (x / 4 * 4 + ((x mod 4) * 16) / 16 = x)%N.
Proof. clear Hx Hy Hz. euclid. Qed.

Lemma octet1_pad :
  ((((x mod 4) * 16 + y / 16) mod 16) * 16 + ((y mod 16) * 4) / 4 = y)%N.
Proof. clear Hz. euclid. Qed.
End Regroup.

Lemma N_of_ascii_lt (a : ascii) : (N_of_ascii a < 256)%N.
Proof. apply N_ascii_bounded. Qed.

(** Induction on strings, three characters at a time. *)
Lemma string_triple_ind (P : string -> Prop) :
  P "" ->
  (forall a, P (String a "")) ->
  (forall a b, P (String a (String b ""))) ->
  (forall a b c rest, P rest -> P (String a (String b (String c rest)))) ->
  forall s, P s.
Proof.
  intros H0 H1 H2 H3.
  assert (H : forall s, P s /\ (forall a, P (String a s)) /\
                        (forall a b, P (String a (String b s)))).
  { induction s as [|c s [IH0 [IH1 IH2]]].
    - auto.
    - repeat split; auto. }
  intros s. apply H.
Qed.

Lemma pad_eqb : Ascii.eqb "=" "=" = true.
Proof. reflexivity. Qed.

Theorem base64_decode_btoa (s : string) : base64_decode (btoa s) = Some s.
Proof.
  induction s as [|a|a b|a b c rest IH] using string_triple_ind.
  - reflexivity.
  - pose proof (N_of_ascii_lt a) as Ha.
    cbn [btoa]. cbv zeta. rewrite base64_decode_group.
    rewrite (char_sextet_sextet_char _ (sextet0_lt _ Ha)).
    rewrite (char_sextet_sextet_char _ (sextet1_pad_lt (N_of_ascii a))).
    rewrite char_sextet_pad, pad_eqb. cbn [andb String.eqb]. cbv zeta.
    rewrite octet0_pad, ascii_N_embedding. reflexivity.
  - pose proof (N_of_ascii_lt a) as Ha. pose proof (N_of_ascii_lt b) as Hb.
    cbn [btoa]. cbv zeta. rewrite base64_decode_group.
    rewrite (char_sextet_sextet_char _ (sextet0_lt _ Ha)).
    rewrite (char_sextet_sextet_char _ (sextet1_lt _ _ Ha Hb)).
    rewrite (char_sextet_sextet_char _ (sextet2_pad_lt (N_of_ascii b))).
    rewrite char_sextet_pad, pad_eqb. cbn [andb String.eqb]. cbv zeta.
    rewrite (octet0 _ _ Ha Hb), (octet1_pad _ _ Ha Hb), !ascii_N_embedding.
    reflexivity.
  - pose proof (N_of_ascii_lt a) as Ha. pose proof (N_of_ascii_lt b) as Hb.
    pose proof (N_of_ascii_lt c) as Hc.
    cbn [btoa]. cbv zeta. rewrite base64_decode_group.
    rewrite (char_sextet_sextet_char _ (sextet0_lt _ Ha)).
    rewrite (char_sextet_sextet_char _ (sextet1_lt _ _ Ha Hb)).
    rewrite (char_sextet_sextet_char _ (sextet2_lt _ _ Hb Hc)).
    rewrite (char_sextet_sextet_char _ (sextet3_lt (N_of_ascii c))).
    fold btoa. rewrite IH. cbv zeta.
    rewrite (octet0 _ _ Ha Hb), (octet1 _ _ _ Ha Hb Hc), (octet2 _ _ Hb Hc).
    rewrite !ascii_N_embedding. reflexivity.
Qed.

(** The bytes handed to [btoa(String.fromCharCode(...))] come back. *)
Lemma decode_transaction_bytes (bytes : list byte) :
  option_map bytes_of_binary_string
    (base64_decode (btoa (String_fromCharCode bytes))) = Some bytes.
Proof.
  rewrite base64_decode_btoa. simpl.
  unfold bytes_of_binary_string, String_fromCharCode.
  rewrite list_byte_of_string_of_list_byte. reflexivity.
Qed.

(* ================================================================== *)
(** * The launch *)
(* ================================================================== *)

(** The [try] block, step by step. *)
Lemma launch_try_run (w : World) (sdk : Web3)
    (publicKey tokenName tokenTicker description imageUrl : string)
    (options : option PumpFunTokenOptions.t) (tr : Trace) :
  launch_try w sdk publicKey tokenName tokenTicker description imageUrl options tr =
  match Keypair_generate_answer w tr with
  | Throw e => (Throw e, tr)
  | Return mintKeypair =>
  match uploadMetadata w tokenName tokenTicker description imageUrl options tr with
  | (Throw e, tr1) => (Throw e, tr1)
  | (Return metadataResponse, tr1) =>
  match createTokenTransaction w publicKey mintKeypair metadataResponse options tr1 with
  | (Throw e, tr2) => (Throw e, tr2)
  | (Return response, tr2) =>
  match arrayBuffer response with
  | Throw e => (Throw e, tr2)
  | Return transactionData =>
  match deserialize sdk transactionData with
  | Throw e => (Throw e, tr2)
  | Return tx =>
  match sign sdk tx [mintKeypair] with
  | Throw e => (Throw e, tr2)
  | Return signed =>
  match serialize sdk signed with
  | Throw e => (Throw e, tr2)
  | Return uint8Array => (Return (btoa (String_fromCharCode uint8Array)), tr2)
  end end end end end end end.
Proof.
  unfold launch_try, bind, settle, ret, Keypair_generate.
  destruct (Keypair_generate_answer w tr) as [kp|e]; [|reflexivity].
  destruct (uploadMetadata w tokenName tokenTicker description imageUrl options tr)
    as [[m|e] tr1]; [|reflexivity].
  destruct (createTokenTransaction w publicKey kp m options tr1)
    as [[response|e] tr2]; [|reflexivity].
  destruct (arrayBuffer response) as [data|e]; [|reflexivity].
  destruct (deserialize sdk data) as [tx|e]; [|reflexivity].
  destruct (sign sdk tx [kp]) as [signed|e]; [|reflexivity].
  destruct (serialize sdk signed) as [bytes|e]; reflexivity.
Qed.

Lemma launch_catch_run (error : Thrown) (tr : Trace) :
  launch_catch error tr = (Throw error, tr ++ catch_logs error).
Proof.
  unfold launch_catch, catch_logs, bind, console_error, throw, ret.
  destruct (instanceof_Error error && has_property "logs" error).
  - rewrite <- app_assoc. reflexivity.
  - reflexivity.
Qed.

Lemma catch_logs_are_logs (error : Thrown) :
  forallb is_log (catch_logs error) = true.
Proof.
  unfold catch_logs.
  destruct (instanceof_Error error && has_property "logs" error); reflexivity.
Qed.

Lemma launchPumpFunToken_run (w : World) (sdk : Web3)
    (publicKey tokenName tokenTicker description imageUrl : string)
    (options : option PumpFunTokenOptions.t) (tr : Trace) :
  launchPumpFunToken w sdk publicKey tokenName tokenTicker description imageUrl
    options tr =
  match launch_try w sdk publicKey tokenName tokenTicker description imageUrl
          options tr with
  | (Return s, tr') => (Return s, tr')
  | (Throw e, tr') => (Throw e, tr' ++ catch_logs e)
  end.
Proof.
  unfold launchPumpFunToken, try_catch.
  destruct (launch_try w sdk publicKey tokenName tokenTicker description
              imageUrl options tr) as [[s|e] tr'].
  - reflexivity.
  - apply launch_catch_run.
Qed.

Lemma build_payload_mint (publicKey : string) (mintKeypair : Keypair.t)
    (m : JsValue) (options : option PumpFunTokenOptions.t) (payload : Payload) :
  build_payload publicKey mintKeypair m options = Return payload ->
  mint payload = Keypair.publicKey mintKeypair.
Proof.
  unfold build_payload.
  destruct (js_get m "metadata") as [md|]; [|discriminate].
  destruct (js_get md "name"); [|discriminate].
  destruct (js_get md "symbol"); [|discriminate].
  destruct (js_get m "metadataUri"); [|discriminate].
  intros H. inversion H. reflexivity.
Qed.

Lemma createTokenTransaction_Return_inv (w : World) (publicKey : string)
    (mintKeypair : Keypair.t) (m : JsValue)
    (options : option PumpFunTokenOptions.t) (tr tr' : Trace)
    (response : Response) :
  createTokenTransaction w publicKey mintKeypair m options tr
    = (Return response, tr') ->
  exists payload,
    build_payload publicKey mintKeypair m options = Return payload /\
    fetch_answer w tr (trade_request payload) = Return response /\
    ok response = true /\
    tr' = tr ++ [Fetch (trade_request payload)].
Proof.
  rewrite createTokenTransaction_run.
  destruct (build_payload publicKey mintKeypair m options) as [payload|];
    [|discriminate].
  cbn zeta.
  destruct (fetch_answer w tr (trade_request payload)) as [r|] eqn:Hf;
    [|discriminate].
  destruct (ok r) eqn:Hok.
  - intros H. inversion H. subst. exists payload. auto.
  - destruct (text r); discriminate.
Qed.

Lemma uploadMetadata_Return_inv (w : World)
    (tokenName tokenTicker description imageUrl : string)
    (options : option PumpFunTokenOptions.t) (tr tr' : Trace) (m : JsValue) :
  uploadMetadata w tokenName tokenTicker description imageUrl options tr
    = (Return m, tr') ->
  exists agent form,
    proxy_agent w = Return agent /\
    tr' = tr ++ [Fetch (image_request imageUrl);
                 Fetch (upload_request agent form)].
Proof.
  rewrite uploadMetadata_run. cbn zeta.
  destruct (fetch_answer w tr (image_request imageUrl)) as [ir|]; [|discriminate].
  destruct (blob ir) as [b|]; [|discriminate].
  destruct (proxy_agent w) as [agent|]; [|discriminate].
  match goal with |- context [fetch_answer w ?t ?r] =>
    destruct (fetch_answer w t r) as [r0|] end; [|discriminate].
  destruct (ok r0); [|discriminate].
  intros H. inversion H. eexists. eexists. split; [reflexivity|].
  rewrite <- app_assoc. reflexivity.
Qed.

(** C1. When [launchPumpFunToken] returns a string, the one request sent
    to the trade endpoint carries the generated keypair's public key as
    [mint], and the string is the base64 text of the serialized
    transaction that results from one call of [sign], with that keypair
    as its only signer, on the transaction deserialized from the
    endpoint's answer. *)
Theorem launchPumpFunToken_signed (w : World) (sdk : Web3)
    (publicKey tokenName tokenTicker description imageUrl : string)
    (options : option PumpFunTokenOptions.t) (tr tr' : Trace) (s : string) :
  launchPumpFunToken w sdk publicKey tokenName tokenTicker description imageUrl
    options tr = (Return s, tr') ->
  exists mintKeypair form payload response transactionData tx signed uint8Array,
    Keypair_generate_answer w tr = Return mintKeypair /\
    tr' = tr ++ [Fetch (image_request imageUrl);
                 Fetch (upload_request
                          (if present (IPFS_HTTP_PROXY w)
                           then IPFS_HTTP_PROXY w else None) form);
                 Fetch (trade_request payload)] /\
    body (trade_request payload) = JsonBody payload /\
    mint payload = Keypair.publicKey mintKeypair /\
    fetch_answer w
      (tr ++ [Fetch (image_request imageUrl);
              Fetch (upload_request
                       (if present (IPFS_HTTP_PROXY w)
                        then IPFS_HTTP_PROXY w else None) form)])
      (trade_request payload) = Return response /\
    arrayBuffer response = Return transactionData /\
    deserialize sdk transactionData = Return tx /\
    sign sdk tx [mintKeypair] = Return signed /\
    serialize sdk signed = Return uint8Array /\
    base64_decode s = Some (String_fromCharCode uint8Array) /\
    option_map bytes_of_binary_string (base64_decode s) = Some uint8Array.
Proof.
  rewrite launchPumpFunToken_run, launch_try_run.
  destruct (Keypair_generate_answer w tr) as [kp|]; [|discriminate].
  destruct (uploadMetadata w tokenName tokenTicker description imageUrl options tr)
    as [[m|] tr1] eqn:Hu; [|discriminate].
  destruct (createTokenTransaction w publicKey kp m options tr1)
    as [[response|] tr2] eqn:Hc; [|discriminate].
  destruct (arrayBuffer response) as [data|] eqn:Ha; [|discriminate].
  destruct (deserialize sdk data) as [tx|] eqn:Hd; [|discriminate].
  destruct (sign sdk tx [kp]) as [signed|] eqn:Hs; [|discriminate].
  destruct (serialize sdk signed) as [bytes|] eqn:Hz; [|discriminate].
  intros H. inversion H. subst s tr'. clear H.
  apply uploadMetadata_Return_inv in Hu. destruct Hu as [agent [form [Hg ->]]].
  apply proxy_agent_Return in Hg. subst agent.
  apply createTokenTransaction_Return_inv in Hc.
  destruct Hc as [payload [Hp [Hf [_ ->]]]].
  exists kp, form, payload, response, data, tx, signed, bytes.
  repeat split; auto.
  - rewrite <- app_assoc. reflexivity.
  - eapply build_payload_mint; eassumption.
  - apply base64_decode_btoa.
  - apply decode_transaction_bytes.
Qed.

Lemma launchPumpFunToken_signed_witness :
  exists mintKeypair payload signed,
    last happy_trace (Fetch (image_request "")) = Fetch (trade_request payload) /\
    mint payload = Keypair.publicKey mintKeypair /\
    sign mock_sdk {| signatures := []; message := tx_bytes |} [mintKeypair]
      = Return signed /\
    option_map bytes_of_binary_string (base64_decode "8fLz9IABAAED/4ABAAED/w==")
      = serialize_bytes signed.
Proof.
  destruct (launchPumpFunToken_signed happy_world mock_sdk "wallet" "T" "TICK"
              "a token" "https://example.org/t.png" no_options []
              happy_trace "8fLz9IABAAED/4ABAAED/w==" eq_refl)
    as [kp [form [payload [response [data [tx [signed [bytes H]]]]]]]].
  destruct H as [Hk [Ht [_ [Hm [Hf [Ha [Hd [Hs [Hz [_ Hb]]]]]]]]]].
  exists kp, payload, signed.
  assert (Hlast : last happy_trace (Fetch (image_request ""))
                  = Fetch (trade_request payload)).
  { rewrite Ht. reflexivity. }
  assert (Hr : response = trade_200).
  { simpl in Hf. inversion Hf. reflexivity. }
  subst response. simpl in Ha. inversion Ha. subst data.
  simpl in Hd. inversion Hd. subst tx.
  repeat split; auto.
  rewrite Hb. unfold serialize_bytes.
  change (serialize mock_sdk signed) with
    (@serialize mock_sdk signed) in Hz.
  rewrite Hz. reflexivity.
Defined.

Lemma fst_pairing {A B} (p : A * B) (a : A) : fst p = a -> p = (a, snd p).
Proof. destruct p. simpl. intros ->. reflexivity. Qed.

Lemma launch_rethrows (w : World) (sdk : Web3)
    (publicKey tokenName tokenTicker description imageUrl : string)
    (options : option PumpFunTokenOptions.t) (tr : Trace) (e : Thrown) :
  fst (launch_try w sdk publicKey tokenName tokenTicker description imageUrl
         options tr) = Throw e ->
  launchPumpFunToken w sdk publicKey tokenName tokenTicker description imageUrl
    options tr =
  (Throw e,
   snd (launch_try w sdk publicKey tokenName tokenTicker description imageUrl
          options tr) ++ catch_logs e).
Proof.
  intros H. apply fst_pairing in H.
  rewrite launchPumpFunToken_run, H. reflexivity.
Qed.

Lemma launch_returns (w : World) (sdk : Web3)
    (publicKey tokenName tokenTicker description imageUrl : string)
    (options : option PumpFunTokenOptions.t) (tr : Trace) (s : string) :
  fst (launchPumpFunToken w sdk publicKey tokenName tokenTicker description
         imageUrl options tr) = Return s ->
  fst (launch_try w sdk publicKey tokenName tokenTicker description imageUrl
         options tr) = Return s.
Proof.
  rewrite launchPumpFunToken_run.
  destruct (launch_try w sdk publicKey tokenName tokenTicker description
              imageUrl options tr) as [[s'|e] tr']; [auto|discriminate].
Qed.

(** Rewrite the known outcomes of the steps into the run of the [try]
    block. *)
Ltac known_steps :=
  rewrite launch_try_run;
  repeat match goal with
         | H : fst ?p = _ |- _ => apply fst_pairing in H
         | H : ?x = _ |- context [match ?x with _ => _ end] =>
             rewrite H; cbn beta iota
         end.

Ltac step_throws :=
  match goal with
  | |- fst _ = Throw _ =>
      erewrite launch_rethrows; [reflexivity|]; known_steps; reflexivity
  end.

(** C5. Whatever a step of the launch throws, [launchPumpFunToken]
    throws that same value, after writing it to the console; a string is
    returned only when every step has completed. *)
Theorem launchPumpFunToken_propagates (w : World) (sdk : Web3)
    (publicKey tokenName tokenTicker description imageUrl : string)
    (options : option PumpFunTokenOptions.t) (tr : Trace) :
  let attempt :=
    launch_try w sdk publicKey tokenName tokenTicker description imageUrl options tr in
  let run :=
    launchPumpFunToken w sdk publicKey tokenName tokenTicker description imageUrl
      options tr in
  let upload :=
    uploadMetadata w tokenName tokenTicker description imageUrl options tr in
  (* the [catch] block only logs *)
  (forall e, fst attempt = Throw e ->
     fst run = Throw e /\
     exists logs, snd run = snd attempt ++ logs /\ forallb is_log logs = true) /\
  (* step by step *)
  (forall e, Keypair_generate_answer w tr = Throw e -> fst run = Throw e) /\
  (forall mintKeypair, Keypair_generate_answer w tr = Return mintKeypair ->
   (forall e, fst upload = Throw e -> fst run = Throw e) /\
   (forall metadataResponse, fst upload = Return metadataResponse ->
    let request :=
      createTokenTransaction w publicKey mintKeypair metadataResponse options
        (snd upload) in
    (forall e, fst request = Throw e -> fst run = Throw e) /\
    (forall response, fst request = Return response ->
     (forall e, arrayBuffer response = Throw e -> fst run = Throw e) /\
     (forall transactionData, arrayBuffer response = Return transactionData ->
      (forall e, deserialize sdk transactionData = Throw e -> fst run = Throw e) /\
      (forall tx, deserialize sdk transactionData = Return tx ->
       (forall e, sign sdk tx [mintKeypair] = Throw e -> fst run = Throw e) /\
       (forall signed, sign sdk tx [mintKeypair] = Return signed ->
        (forall e, serialize sdk signed = Throw e -> fst run = Throw e) /\
        (forall uint8Array, serialize sdk signed = Return uint8Array ->
           run = (Return (btoa (String_fromCharCode uint8Array)),
                  snd request)))))))) /\
  (* a string only when everything completed *)
  (forall s, fst run = Return s ->
     exists mintKeypair metadataResponse response transactionData tx signed
            uint8Array,
       Keypair_generate_answer w tr = Return mintKeypair /\
       fst upload = Return metadataResponse /\
       fst (createTokenTransaction w publicKey mintKeypair metadataResponse
              options (snd upload)) = Return response /\
       arrayBuffer response = Return transactionData /\
       deserialize sdk transactionData = Return tx /\
       sign sdk tx [mintKeypair] = Return signed /\
       serialize sdk signed = Return uint8Array /\
       s = btoa (String_fromCharCode uint8Array)).
Proof.
  cbn zeta. split; [|split; [|split]].
  - intros e H. rewrite (launch_rethrows _ _ _ _ _ _ _ _ _ _ H).
    split; [reflexivity|].
    exists (catch_logs e). split; [reflexivity|apply catch_logs_are_logs].
  - intros e Hk. step_throws.
  - intros kp Hk. split; [intros e Hu; step_throws|].
    intros m Hu. split; [intros e Hc; step_throws|].
    intros response Hc. split; [intros e Ha; step_throws|].
    intros data Ha. split; [intros e Hd; step_throws|].
    intros tx Hd. split; [intros e Hs; step_throws|].
    intros signed Hs. split; [intros e Hz; step_throws|].
    intros bytes Hz.
    rewrite launchPumpFunToken_run. known_steps. reflexivity.
  - intros s H. apply launch_returns in H. revert H.
    rewrite launch_try_run.
    destruct (Keypair_generate_answer w tr) as [kp|]; [|discriminate].
    destruct (uploadMetadata w tokenName tokenTicker description imageUrl
                options tr) as [[m|] tr1]; [|discriminate].
    cbn [fst snd].
    destruct (createTokenTransaction w publicKey kp m options tr1)
      as [[response|] tr2] eqn:Hc; [|discriminate].
    destruct (arrayBuffer response) as [data|] eqn:Ha; [|discriminate].
    destruct (deserialize sdk data) as [tx|] eqn:Hd; [|discriminate].
    destruct (sign sdk tx [kp]) as [signed|] eqn:Hs; [|discriminate].
    destruct (serialize sdk signed) as [bytes|] eqn:Hz; [|discriminate].
    intros H. inversion H.
    exists kp, m, response, data, tx, signed, bytes.
    rewrite Hc. repeat split; auto.
Qed.

(* ================================================================== *)
(** * Concrete runs *)
(* ================================================================== *)

Example validateSuiAddress_short :
  validateSuiAddress "0x2" = Throw (new_Error "0x2 is not a valid Sui address.").
Proof. reflexivity. Qed.

Example validateSuiAddress_no_prefix :
  validateSuiAddress ("1x" ++ not_hex_64)
  = Throw (new_Error ("1x" ++ not_hex_64 ++ " is not a valid Sui address.")).
Proof. reflexivity. Qed.

Example validateSuiCoinType_lookup_throws :
  validateSuiCoinType
    (mock_world (Return image_200) (Return upload_200) (Return trade_200)
       (Throw network_error)) "0x2::sui::SUI" []
  = (Throw (new_Error "0x2::sui::SUI is not a valid Sui coin type."),
     [GetCoinMetadata "0x2::sui::SUI"]).
Proof. reflexivity. Qed.

Example validateSuiCoinType_lookup_null :
  validateSuiCoinType happy_world "0x2::sui::SUI" []
  = (Throw (new_Error "0x2::sui::SUI is not a valid Sui coin type."),
     [GetCoinMetadata "0x2::sui::SUI"]).
Proof. reflexivity. Qed.

Example validateSuiCoinType_lookup_object :
  validateSuiCoinType
    (mock_world (Return image_200) (Return upload_200) (Return trade_200)
       (Return (JObj [("decimals", JNum num_10); ("symbol", JStr "SUI")])))
    "0x2::sui::SUI" []
  = (Return tt, [GetCoinMetadata "0x2::sui::SUI"]).
Proof. reflexivity. Qed.

Example launch_happy_run :
  launchPumpFunToken happy_world mock_sdk "wallet" "T" "TICK" "a token"
    "https://example.org/t.png" no_options []
  = (Return "8fLz9IABAAED/4ABAAED/w==", happy_trace).
Proof. reflexivity. Qed.

Example launch_sign_failure_run :
  launchPumpFunToken happy_world strict_sdk "wallet" "T" "TICK" "a token"
    "https://example.org/t.png" no_options []
  = (Throw (ErrorObject "Error" "Cannot sign with non signer key"
              [("logs", JArr [JStr "Program log: create"])]),
     happy_trace ++
     [ConsoleError "Error in launchpumpfuntoken:"
        (LogThrown (ErrorObject "Error" "Cannot sign with non signer key"
                      [("logs", JArr [JStr "Program log: create"])]));
      ConsoleError "Transaction logs:"
        (LogValue (JArr [JStr "Program log: create"]))]).
Proof. reflexivity. Qed.

Example launch_offline_image_run :
  launchPumpFunToken offline_image_world mock_sdk "wallet" "T" "TICK" "a token"
    "https://example.org/t.png" no_options []
  = (Throw (new_Error "Failed to fetch image: TypeError: fetch failed"),
     [Fetch (image_request "https://example.org/t.png");
      ConsoleError "Error in launchpumpfuntoken:"
        (LogThrown (new_Error "Failed to fetch image: TypeError: fetch failed"))]).
Proof. reflexivity. Qed.

Example launch_bad_proxy_run :
  launchPumpFunToken
    (bad_proxy_world (Return image_200) (Return upload_200) (Return trade_200))
    mock_sdk "wallet" "T" "TICK" "a token" "https://example.org/t.png"
    no_options []
  = (Throw invalid_url,
     [Fetch (image_request "https://example.org/t.png");
      ConsoleError "Error in launchpumpfuntoken:" (LogThrown invalid_url)]).
Proof. reflexivity. Qed.

Example launch_proxied_run :
  requests
    (snd (launchPumpFunToken proxied_world mock_sdk "wallet" "T" "TICK"
            "a token" "https://example.org/t.png" no_options []))
  = [image_request "https://example.org/t.png";
     upload_request (Some "http://127.0.0.1:7890")
       (final_form (metadata_fields "T" "TICK" "a token" no_options)
          (image_file png_bytes));
     trade_request mock_payload].
Proof. reflexivity. Qed.

Example launch_refused_run :
  fst (launchPumpFunToken refusing_world mock_sdk "wallet" "T" "TICK" "a token"
         "https://example.org/t.png" no_options [])
  = Throw (new_Error "Transaction creation failed: 400 - bad").
Proof. reflexivity. Qed.

(* ================================================================== *)
(** * Further properties of [src/utils/sui.ts] *)
(* ================================================================== *)

(** X1. [validateSuiCoinType] asks the node exactly once, for the coin
    type it was given, whatever the answer: no retry, no other call. *)
Theorem validateSuiCoinType_one_lookup (w : World) (coinType : string)
    (tr : Trace) :
  snd (validateSuiCoinType w coinType tr) = tr ++ [GetCoinMetadata coinType].
Proof.
  unfold validateSuiCoinType, try_catch, bind, getCoinMetadata, throw, ret.
  destruct (getCoinMetadata_answer w tr coinType) as [v|e]; [|reflexivity].
  destruct (truthy v); reflexivity.
Qed.

Lemma length_snoc (s : string) (c : ascii) :
  String.length (s ++ String c "") = S (String.length s).
Proof. rewrite length_app. simpl. lia. Qed.

(** X2. Nothing is trimmed: an accepted address with one more character
    in front or behind, whatever the character, is rejected. *)
Theorem validateSuiAddress_no_trimming (s : string) (c : ascii) :
  validateSuiAddress s = Return tt ->
  throws (validateSuiAddress (String c s)) = true /\
  throws (validateSuiAddress (s ++ String c "")) = true.
Proof.
  rewrite !validateSuiAddress_cases.
  destruct (startsWith s "0x"); [|discriminate].
  destruct (Nat.eqb_spec (String.length s) 66) as [Hl|]; [|discriminate].
  intros _. rewrite length_snoc. cbn [String.length]. rewrite Hl.
  rewrite !andb_false_r. split; reflexivity.
Qed.

Lemma validateSuiAddress_no_trimming_witness :
  throws (validateSuiAddress (String " " ("0x" ++ not_hex_64))) = true /\
  throws (validateSuiAddress (("0x" ++ not_hex_64) ++ String " " "")) = true.
Proof.
  apply (validateSuiAddress_no_trimming ("0x" ++ not_hex_64) " ").
  reflexivity.
Defined.

(** X3. The RPC URL is never empty: a non-empty [SUI_RPC_URL] is used as
    it is, an unset or empty one gives the public mainnet node. *)
Theorem suiClient_url_never_empty (SUI_RPC_URL : option string) :
  string_truthy (suiClient_url SUI_RPC_URL) = true /\
  (forall u, SUI_RPC_URL = Some u -> u <> "" -> suiClient_url SUI_RPC_URL = u) /\
  (SUI_RPC_URL = None \/ SUI_RPC_URL = Some "" ->
   suiClient_url SUI_RPC_URL = "https://fullnode.mainnet.sui.io:443").
Proof.
  unfold suiClient_url. destruct SUI_RPC_URL as [[|c u]|]; simpl.
  - repeat split; auto. intros u H. inversion H. congruence.
  - repeat split; auto.
    + intros u' H. inversion H. reflexivity.
    + intros [H|H]; discriminate.
  - repeat split; auto. discriminate.
Qed.

(* ================================================================== *)
(** * Further properties of [uploadMetadata] *)
(* ================================================================== *)

(** X4. The text fields of the upload: [name], [symbol], [description]
    and [showName = "true"] come first, in this order; a social link is
    present exactly when its option is a non-empty string, and then with
    that value; no key occurs twice. *)
Theorem metadata_fields_content (tokenName tokenTicker description : string)
    (options : option PumpFunTokenOptions.t) :
  let fields := metadata_fields tokenName tokenTicker description options in
  let link (member : option string) :=
    match member with
    | Some s => if string_truthy s then Some s else None
    | None => None
    end in
  firstn 4 fields =
    [("name", tokenName); ("symbol", tokenTicker);
     ("description", description); ("showName", "true")] /\
  params_get "twitter" fields =
    link (optional options PumpFunTokenOptions.twitter) /\
  params_get "telegram" fields =
    link (optional options PumpFunTokenOptions.telegram) /\
  params_get "website" fields =
    link (optional options PumpFunTokenOptions.website) /\
  NoDup (map fst fields) /\
  List.length fields <= 7.
Proof.
  cbn zeta. unfold metadata_fields, append_if_present, optional.
  destruct options as [o|].
  - destruct (PumpFunTokenOptions.twitter o) as [s1|];
      [destruct (string_truthy s1)|];
      (destruct (PumpFunTokenOptions.telegram o) as [s2|];
        [destruct (string_truthy s2)|]);
      (destruct (PumpFunTokenOptions.website o) as [s3|];
        [destruct (string_truthy s3)|]);
      cbn; repeat split; try lia;
      repeat (constructor; [cbn; intuition discriminate|]); constructor.
  - cbn. repeat split; try lia.
    repeat (constructor; [cbn; intuition discriminate|]); constructor.
Qed.

(** [uploadMetadata] in terms of its image step and of the agent. *)
Lemma uploadMetadata_by_image_step (w : World)
    (tokenName tokenTicker description imageUrl : string)
    (options : option PumpFunTokenOptions.t) (tr : Trace) :
  uploadMetadata w tokenName tokenTicker description imageUrl options tr =
  let tr1 := tr ++ [Fetch (image_request imageUrl)] in
  match image_step w imageUrl tr with
  | Throw e => (Throw (new_Error ("Failed to fetch image: " ++ toString e)), tr1)
  | Return imageBlob =>
      match proxy_agent w with
      | Throw e => (Throw e, tr1)
      | Return agent =>
          let req :=
            upload_request_for tokenName tokenTicker description options
              imageBlob agent in
          match fetch_answer w tr1 req with
          | Throw e =>
              (Throw (new_Error ("Failed to upload metadata: " ++ toString e)),
               tr1 ++ [Fetch req])
          | Return r =>
              if ok r then (json r, tr1 ++ [Fetch req])
              else (Throw (new_Error ("Metadata upload failed: " ++ statusText r)),
                    tr1 ++ [Fetch req])
          end
      end
  end.
Proof.
  rewrite uploadMetadata_run. unfold image_step, upload_request_for. cbn zeta.
  destruct (fetch_answer w tr (image_request imageUrl)) as [r|]; [|reflexivity].
  destruct (blob r); reflexivity.
Qed.

(** X5. Once the image has been read, whatever its status: if no agent
    is needed or the agent of line 63 is constructed, [uploadMetadata]
    sends one POST to the IPFS endpoint through that agent, without
    headers of its own, whatever the endpoint answers; the body is the
    text fields in their order followed by a single [file] part named
    "token_image.png", typed "image/png", that holds the image bytes.  If
    constructing the agent throws, that value is thrown as it is and the
    image fetch stays the only call. *)
Theorem uploadMetadata_post (w : World)
    (tokenName tokenTicker description imageUrl : string)
    (options : option PumpFunTokenOptions.t) (tr : Trace) (imageBlob : Blob) :
  image_step w imageUrl tr = Return imageBlob ->
  let run := uploadMetadata w tokenName tokenTicker description imageUrl options tr in
  (forall constructed, proxy_agent w = Return constructed ->
     exists req,
       snd run = tr ++ [Fetch (image_request imageUrl); Fetch req] /\
       url req = "https://pump.fun/api/ipfs" /\
       method req = Some "POST" /\
       headers req = [] /\
       agent req = constructed /\
       body req =
         FormBody
           (map (fun kv => (fst kv, FormString (snd kv)))
              (metadata_fields tokenName tokenTicker description options)
            ++ [("file",
                 FormFile {| bits := [imageBlob]; filename := "token_image.png";
                             type := "image/png" |})])) /\
  (forall e, proxy_agent w = Throw e ->
     run = (Throw e, tr ++ [Fetch (image_request imageUrl)])).
Proof.
  intros Hi. cbn zeta. rewrite uploadMetadata_by_image_step, Hi. cbn zeta.
  split.
  - intros constructed Ha. rewrite Ha.
    exists (upload_request_for tokenName tokenTicker description options
              imageBlob constructed).
    split.
    + match goal with |- context [fetch_answer w ?t ?r] =>
        destruct (fetch_answer w t r) as [r0|] end;
        [destruct (ok r0)|]; cbn [snd]; rewrite <- app_assoc; reflexivity.
    + unfold upload_request_for, upload_request.
      cbn [url method headers body agent].
      rewrite final_form_entries. auto.
  - intros e Ha. rewrite Ha. reflexivity.
Qed.

Lemma uploadMetadata_post_witness :
  (exists req,
     snd (uploadMetadata missing_image_world "T" "TICK" "a token"
            "https://example.org/t.png" link_options [])
       = [] ++ [Fetch (image_request "https://example.org/t.png"); Fetch req] /\
     body req =
       FormBody
         [("name", FormString "T"); ("symbol", FormString "TICK");
          ("description", FormString "a token"); ("showName", FormString "true");
          ("telegram", FormString "t.me/tick");
          ("file",
           FormFile {| bits := [html_404]; filename := "token_image.png";
                       type := "image/png" |})]) /\
  uploadMetadata missing_image_bad_proxy_world "T" "TICK" "a token"
    "https://example.org/t.png" link_options []
  = (Throw invalid_url, [] ++ [Fetch (image_request "https://example.org/t.png")]).
Proof.
  split.
  - destruct (uploadMetadata_post missing_image_world "T" "TICK" "a token"
                "https://example.org/t.png" link_options [] html_404 eq_refl)
      as [H _].
    destruct (H None eq_refl) as [req [Ht [_ [_ [_ [_ Hb]]]]]].
    exists req. split; [exact Ht|exact Hb].
  - destruct (uploadMetadata_post missing_image_bad_proxy_world "T" "TICK"
                "a token" "https://example.org/t.png" link_options [] html_404
                eq_refl) as [_ H].
    exact (H invalid_url eq_refl).
Defined.

(** X6. [uploadMetadata] fails in five ways and no other: the image
    cannot be fetched or read, constructing the proxy agent throws, the
    POST itself throws, the endpoint answers outside 200-299, or the 2xx
    body is not JSON.  The image, POST and status failures give a fresh
    [Error] whose message names the step and ends with the cause's text
    or the status text; what the agent constructor or [json()] threw is
    passed on as it is. *)
Theorem uploadMetadata_failures (w : World)
    (tokenName tokenTicker description imageUrl : string)
    (options : option PumpFunTokenOptions.t) (tr : Trace) (e : Thrown) :
  fst (uploadMetadata w tokenName tokenTicker description imageUrl options tr)
    = Throw e <->
  (exists cause,
     image_step w imageUrl tr = Throw cause /\
     e = new_Error ("Failed to fetch image: " ++ toString cause)) \/
  (exists imageBlob,
     image_step w imageUrl tr = Return imageBlob /\
     (proxy_agent w = Throw e \/
      exists agent,
        proxy_agent w = Return agent /\
        let answer :=
          fetch_answer w (tr ++ [Fetch (image_request imageUrl)])
            (upload_request_for tokenName tokenTicker description options
               imageBlob agent) in
        (exists cause,
           answer = Throw cause /\
           e = new_Error ("Failed to upload metadata: " ++ toString cause)) \/
        (exists r,
           answer = Return r /\ ok r = false /\
           e = new_Error ("Metadata upload failed: " ++ statusText r)) \/
        (exists r, answer = Return r /\ ok r = true /\ json r = Throw e))).
Proof.
  rewrite uploadMetadata_by_image_step. cbn zeta.
  destruct (image_step w imageUrl tr) as [b|cause0].
  2:{ cbn [fst]. split.
      - intros H. inversion H. left. exists cause0. auto.
      - intros [[c [H He]]|[b' [Hb _]]]; [|discriminate].
        inversion H; subst. reflexivity. }
  destruct (proxy_agent w) as [agent|e0].
  2:{ cbn [fst]. split.
      - intros H. inversion H. right. exists b. split; [reflexivity|].
        left. reflexivity.
      - intros [[c [H _]]|[b' [_ [H|[agent [H _]]]]]]; try discriminate.
        inversion H. reflexivity. }
  destruct (fetch_answer w (tr ++ [Fetch (image_request imageUrl)])
              (upload_request_for tokenName tokenTicker description options b
                 agent)) as [r0|cause1] eqn:Hf.
  - destruct (ok r0) eqn:Hok; cbn [fst]; split.
    + intros H. right. exists b. split; [reflexivity|]. right.
      exists agent. split; [reflexivity|]. rewrite Hf.
      right; right. exists r0. auto.
    + intros [[c [H _]]|[b' [Hb [H|[agent' [Ha H]]]]]]; try discriminate.
      inversion Hb; subst b'. inversion Ha; subst agent'. rewrite Hf in H.
      destruct H as [[c [H _]]|[[r [H [Hk _]]]|[r [H [_ Hj]]]]];
        inversion H; subst; congruence.
    + intros H. inversion H. right. exists b. split; [reflexivity|]. right.
      exists agent. split; [reflexivity|]. rewrite Hf.
      right; left. exists r0. auto.
    + intros [[c [H _]]|[b' [Hb [H|[agent' [Ha H]]]]]]; try discriminate.
      inversion Hb; subst b'. inversion Ha; subst agent'. rewrite Hf in H.
      destruct H as [[c [H _]]|[[r [H [_ He]]]|[r [H [Hk _]]]]];
        inversion H; subst; congruence.
  - cbn [fst]. split.
    + intros H. inversion H. right. exists b. split; [reflexivity|]. right.
      exists agent. split; [reflexivity|]. rewrite Hf.
      left. exists cause1. auto.
    + intros [[c [H _]]|[b' [Hb [H|[agent' [Ha H]]]]]]; try discriminate.
      inversion Hb; subst b'. inversion Ha; subst agent'. rewrite Hf in H.
      destruct H as [[c [H He]]|[[r [H _]]|[r [H _]]]];
        inversion H; subst; reflexivity.
Qed.

(* ================================================================== *)
(** * Further properties of [createTokenTransaction] *)
(* ================================================================== *)

(** X7. The payload cannot be built exactly when the upload result, or
    its [metadata] member, is [undefined] or [null]; what is thrown is
    then a [TypeError] and no request leaves.  A [metadata] object that
    lacks [name] is no error: the payload carries [name: undefined]. *)
Theorem build_payload_throws (w : World) (publicKey : string)
    (mintKeypair : Keypair.t) (m : JsValue)
    (options : option PumpFunTokenOptions.t) (tr : Trace) :
  (throws (build_payload publicKey mintKeypair m options) = true <->
     nullish m = true \/
     exists metadata, js_get m "metadata" = Return metadata /\
                      nullish metadata = true) /\
  (forall e, build_payload publicKey mintKeypair m options = Throw e ->
     createTokenTransaction w publicKey mintKeypair m options tr = (Throw e, tr) /\
     exists msg, e = new_TypeError msg) /\
  (forall fields, js_get m "metadata" = Return (JObj fields) ->
     assoc "name" fields = None ->
     exists payload,
       build_payload publicKey mintKeypair m options = Return payload /\
       name (tokenMetadata payload) = JUndefined).
Proof.
  split; [|split].
  - unfold build_payload.
    destruct (js_get m "metadata") as [md|e] eqn:Hm.
    + pose proof (js_get_throws m "metadata") as Hn. rewrite Hm in Hn.
      cbn [throws] in Hn. rewrite <- Hn.
      pose proof (js_get_twice m md "metadata" "metadataUri" Hm) as Hu.
      destruct (js_get md "name") as [n|e] eqn:Hname.
      * pose proof (js_get_twice md n "name" "symbol" Hname) as Hs.
        destruct (js_get md "symbol"); [|discriminate].
        destruct (js_get m "metadataUri"); [|discriminate].
        cbn [throws]. split; [discriminate|].
        intros [H|[md' [H1 H2]]]; [discriminate|].
        inversion H1; subst md'.
        pose proof (js_get_throws md "name") as Ht.
        rewrite Hname, H2 in Ht. discriminate.
      * cbn [throws]. split; [|reflexivity]. intros _. right.
        exists md. split; [reflexivity|].
        rewrite <- (js_get_throws md "name"), Hname. reflexivity.
    + cbn [throws]. split; [|reflexivity]. intros _. left.
      rewrite <- (js_get_throws m "metadata"), Hm. reflexivity.
  - intros e H. split.
    + rewrite createTokenTransaction_run, H. reflexivity.
    + revert H. unfold build_payload.
      destruct (js_get m "metadata") as [md|e0] eqn:Hm.
      2:{ intros H. inversion H; subst. eapply js_get_TypeError; eassumption. }
      destruct (js_get md "name") as [n|e0] eqn:Hn.
      2:{ intros H. inversion H; subst. eapply js_get_TypeError; eassumption. }
      destruct (js_get md "symbol") as [sy|e0] eqn:Hs.
      2:{ intros H. inversion H; subst. eapply js_get_TypeError; eassumption. }
      destruct (js_get m "metadataUri") as [u|e0] eqn:Hu.
      2:{ intros H. inversion H; subst. eapply js_get_TypeError; eassumption. }
      discriminate.
  - intros fields Hm Hn. unfold build_payload. rewrite Hm.
    pose proof (js_get_twice m _ "metadata" "metadataUri" Hm) as Hu.
    cbn [js_get]. rewrite Hn.
    destruct (js_get m "metadataUri"); [|discriminate].
    eexists. split; reflexivity.
Qed.

Lemma number_or_truthy (x : option number) (d : number) :
  number_truthy d = true -> number_truthy (number_or x d) = true.
Proof.
  intros H. destruct x as [v|]; simpl; [|exact H].
  destruct (number_truthy v) eqn:Hv; assumption.
Qed.

(** X8. Whatever the options, the payload never carries a zero or [NaN]
    [slippage] or [priorityFee], and its [amount] is [+0] or a number
    other than zero and [NaN]. *)
Theorem payload_numbers_truthy (publicKey : string) (mintKeypair : Keypair.t)
    (m : JsValue) (options : option PumpFunTokenOptions.t) (payload : Payload) :
  build_payload publicKey mintKeypair m options = Return payload ->
  number_truthy (slippage payload) = true /\
  number_truthy (priorityFee payload) = true /\
  (amount payload = num_0 \/ number_truthy (amount payload) = true).
Proof.
  unfold build_payload.
  destruct (js_get m "metadata") as [md|]; [|discriminate].
  destruct (js_get md "name"); [|discriminate].
  destruct (js_get md "symbol"); [|discriminate].
  destruct (js_get m "metadataUri"); [|discriminate].
  intros H. inversion H. cbn [slippage priorityFee amount].
  split; [apply number_or_truthy; reflexivity|].
  split; [apply number_or_truthy; reflexivity|].
  unfold number_or.
  destruct (optional options PumpFunTokenOptions.initialBuyAmount) as [v|];
    [|left; reflexivity].
  destruct (number_truthy v) eqn:Hv; [right; exact Hv|left; reflexivity].
Qed.

Lemma payload_numbers_truthy_witness :
  number_truthy num_10 = true /\
  number_truthy num_0_0001 = true /\
  (num_0 = num_0 \/ number_truthy num_0 = true).
Proof.
  exact (payload_numbers_truthy "wallet" mock_keypair mock_metadata zero_options
           mock_payload eq_refl).
Defined.

(** X9. What [createTokenTransaction] returns is the answer to its own
    request, and only when that answer has a status in 200-299.  It
    throws what the payload threw, what [fetch] threw or what reading the
    body of a non-2xx answer threw, each unchanged, or else the [Error]
    built from the status and the body text. *)
Theorem createTokenTransaction_outcomes (w : World) (publicKey : string)
    (mintKeypair : Keypair.t) (m : JsValue)
    (options : option PumpFunTokenOptions.t) (tr : Trace) :
  let outcome := fst (createTokenTransaction w publicKey mintKeypair m options tr) in
  let built := build_payload publicKey mintKeypair m options in
  (forall response,
     outcome = Return response <->
     exists payload,
       built = Return payload /\
       fetch_answer w tr (trade_request payload) = Return response /\
       ok response = true) /\
  (forall e,
     outcome = Throw e <->
     built = Throw e \/
     exists payload,
       built = Return payload /\
       (fetch_answer w tr (trade_request payload) = Throw e \/
        exists response,
          fetch_answer w tr (trade_request payload) = Return response /\
          ok response = false /\
          (text response = Throw e \/
           exists errorText,
             text response = Return errorText /\
             e = new_Error ("Transaction creation failed: "
                            ++ decimal (status response) ++ " - "
                            ++ errorText)))).
Proof.
  cbn zeta. rewrite createTokenTransaction_run.
  destruct (build_payload publicKey mintKeypair m options) as [p|e0].
  2:{ cbn [fst]. split.
      - intros r. split; [discriminate|]. intros [p [H _]]. discriminate.
      - intros e. split.
        + intros H. left. inversion H. reflexivity.
        + intros [H|[p [H _]]]; [inversion H; reflexivity|discriminate]. }
  cbn zeta.
  destruct (fetch_answer w tr (trade_request p)) as [r|e0] eqn:Hf.
  2:{ cbn [fst]. split.
      - intros r. split; [discriminate|].
        intros [p' [Hp [H _]]]. inversion Hp; subst p'. congruence.
      - intros e. split.
        + intros H. right. exists p. split; [reflexivity|]. left.
          rewrite Hf. inversion H. reflexivity.
        + intros [H|[p' [Hp H]]]; [discriminate|].
          inversion Hp; subst p'.
          destruct H as [H|[r [H _]]]; congruence. }
  destruct (ok r) eqn:Hok.
  - cbn [fst]. split.
    + intros r'. split.
      * intros H. inversion H; subst r'. exists p. rewrite Hf. auto.
      * intros [p' [Hp [H _]]]. inversion Hp; subst p'. congruence.
    + intros e. split; [discriminate|].
      intros [H|[p' [Hp H]]]; [discriminate|]. inversion Hp; subst p'.
      destruct H as [H|[r' [H [Hk _]]]]; [congruence|].
      rewrite Hf in H. inversion H; subst r'. congruence.
  - destruct (text r) as [t|e1] eqn:Ht; cbn [fst]; split.
    + intros r'. split; [discriminate|].
      intros [p' [Hp [H Hk]]]. inversion Hp; subst p'.
      rewrite Hf in H. inversion H; subst r'. congruence.
    + intros e. split.
      * intros H. inversion H. right. exists p. split; [reflexivity|].
        right. exists r. rewrite Hf. repeat split; auto.
        right. exists t. auto.
      * intros [H|[p' [Hp H]]]; [discriminate|]. inversion Hp; subst p'.
        destruct H as [H|[r' [H [_ H']]]]; [congruence|].
        rewrite Hf in H. inversion H; subst r'.
        destruct H' as [H'|[t' [H1 H2]]]; [congruence|].
        rewrite Ht in H1. inversion H1; subst t'. rewrite H2. reflexivity.
    + intros r'. split; [discriminate|].
      intros [p' [Hp [H Hk]]]. inversion Hp; subst p'.
      rewrite Hf in H. inversion H; subst r'. congruence.
    + intros e. split.
      * intros H. inversion H; subst e. right. exists p.
        split; [reflexivity|]. right. exists r. rewrite Hf. auto.
      * intros [H|[p' [Hp H]]]; [discriminate|]. inversion Hp; subst p'.
        destruct H as [H|[r' [H [_ H']]]]; [congruence|].
        rewrite Hf in H. inversion H; subst r'.
        destruct H' as [H'|[t' [H1 _]]]; congruence.
Qed.

(* ================================================================== *)
(** * Further properties of [launchPumpFunToken] *)
(* ================================================================== *)

Lemma requests_app (a b : Trace) : requests (a ++ b) = requests a ++ requests b.
Proof.
  induction a as [|ev a IH]; [reflexivity|].
  destruct ev; simpl; rewrite IH; reflexivity.
Qed.

Lemma requests_catch_logs (e : Thrown) : requests (catch_logs e) = [].
Proof.
  unfold catch_logs.
  destruct (instanceof_Error e && has_property "logs" e); reflexivity.
Qed.

(** The trace that [uploadMetadata] leaves, by its image step and the
    construction of the agent. *)
Lemma uploadMetadata_shape (w : World)
    (tokenName tokenTicker description imageUrl : string)
    (options : option PumpFunTokenOptions.t) (tr : Trace) :
  let run := uploadMetadata w tokenName tokenTicker description imageUrl options tr in
  match image_step w imageUrl tr with
  | Throw _ =>
      throws (fst run) = true /\
      snd run = tr ++ [Fetch (image_request imageUrl)]
  | Return imageBlob =>
      match proxy_agent w with
      | Throw _ =>
          throws (fst run) = true /\
          snd run = tr ++ [Fetch (image_request imageUrl)]
      | Return agent =>
          snd run =
            tr ++ [Fetch (image_request imageUrl);
                   Fetch (upload_request_for tokenName tokenTicker description
                            options imageBlob agent)]
      end
  end.
Proof.
  cbn zeta. rewrite uploadMetadata_by_image_step. cbn zeta.
  destruct (image_step w imageUrl tr) as [b|]; [|split; reflexivity].
  destruct (proxy_agent w) as [agent|]; [|split; reflexivity].
  match goal with |- context [fetch_answer w ?t ?r] =>
    destruct (fetch_answer w t r) as [r0|] end;
    [destruct (ok r0)|]; cbn [snd]; rewrite <- app_assoc; reflexivity.
Qed.

Lemma createTokenTransaction_shape (w : World) (publicKey : string)
    (mintKeypair : Keypair.t) (m : JsValue)
    (options : option PumpFunTokenOptions.t) (tr : Trace) :
  let run := createTokenTransaction w publicKey mintKeypair m options tr in
  match build_payload publicKey mintKeypair m options with
  | Throw _ => throws (fst run) = true /\ snd run = tr
  | Return payload => snd run = tr ++ [Fetch (trade_request payload)]
  end.
Proof.
  cbn zeta. rewrite createTokenTransaction_run.
  destruct (build_payload publicKey mintKeypair m options) as [p|];
    [|split; reflexivity].
  cbn zeta. destruct (fetch_answer w tr (trade_request p)) as [r|];
    [|reflexivity].
  destruct (ok r); [reflexivity|]. destruct (text r); reflexivity.
Qed.

Lemma launchPumpFunToken_requests (w : World) (sdk : Web3)
    (publicKey tokenName tokenTicker description imageUrl : string)
    (options : option PumpFunTokenOptions.t) (tr : Trace) :
  requests
    (snd (launchPumpFunToken w sdk publicKey tokenName tokenTicker description
            imageUrl options tr)) =
  requests tr ++
  launch_requests w publicKey tokenName tokenTicker description imageUrl
    options tr.
Proof.
  unfold launch_requests.
  rewrite launchPumpFunToken_run, launch_try_run.
  destruct (Keypair_generate_answer w tr) as [kp|e].
  2:{ cbn [snd]. rewrite requests_app, requests_catch_logs. reflexivity. }
  pose proof (uploadMetadata_shape w tokenName tokenTicker description imageUrl
                options tr) as Hu.
  cbn zeta in Hu.
  destruct (uploadMetadata w tokenName tokenTicker description imageUrl options tr)
    as [[m|e] tr1].
  2:{ cbn [fst snd] in *. rewrite requests_app, requests_catch_logs, app_nil_r.
      destruct (image_step w imageUrl tr); [|destruct Hu as [_ Hu]];
        [destruct (proxy_agent w); [|destruct Hu as [_ Hu]]|];
        subst tr1; rewrite requests_app; reflexivity. }
  cbn [fst snd] in *.
  destruct (image_step w imageUrl tr) as [b|]; [|destruct Hu; discriminate].
  destruct (proxy_agent w) as [agent|]; [|destruct Hu; discriminate].
  subst tr1.
  pose proof (createTokenTransaction_shape w publicKey kp m options
                (tr ++ [Fetch (image_request imageUrl);
                        Fetch (upload_request_for tokenName tokenTicker
                                 description options b agent)])) as Hc.
  cbn zeta in Hc.
  destruct (createTokenTransaction w publicKey kp m options _)
    as [[response|e] tr2].
  2:{ cbn [fst snd] in *. rewrite requests_app, requests_catch_logs, app_nil_r.
      destruct (build_payload publicKey kp m options);
        [|destruct Hc as [_ Hc]]; subst tr2; rewrite !requests_app;
        cbn [requests]; rewrite <- ?app_assoc; reflexivity. }
  cbn [fst snd] in *.
  destruct (build_payload publicKey kp m options) as [p|];
    [|destruct Hc; discriminate].
  subst tr2.
  assert (E : requests
                ((tr ++ [Fetch (image_request imageUrl);
                         Fetch (upload_request_for tokenName tokenTicker
                                  description options b agent)])
                 ++ [Fetch (trade_request p)]) =
              requests tr ++
              [image_request imageUrl;
               upload_request_for tokenName tokenTicker description options b
                 agent;
               trade_request p]).
  { rewrite !requests_app. cbn [requests]. rewrite <- app_assoc. reflexivity. }
  destruct (arrayBuffer response) as [data|e];
    [|cbn [snd]; rewrite requests_app, requests_catch_logs, app_nil_r; exact E].
  destruct (deserialize sdk data) as [tx|e];
    [|cbn [snd]; rewrite requests_app, requests_catch_logs, app_nil_r; exact E].
  destruct (sign sdk tx [kp]) as [signed|e];
    [|cbn [snd]; rewrite requests_app, requests_catch_logs, app_nil_r; exact E].
  destruct (serialize sdk signed) as [bytes|e];
    [|cbn [snd]; rewrite requests_app, requests_catch_logs, app_nil_r; exact E].
  exact E.
Qed.

Lemma launch_try_Return_inv (w : World) (sdk : Web3)
    (publicKey tokenName tokenTicker description imageUrl : string)
    (options : option PumpFunTokenOptions.t) (tr tr' : Trace) (s : string) :
  launch_try w sdk publicKey tokenName tokenTicker description imageUrl options tr
    = (Return s, tr') ->
  exists mintKeypair m tr1 response signed uint8Array,
    Keypair_generate_answer w tr = Return mintKeypair /\
    uploadMetadata w tokenName tokenTicker description imageUrl options tr
      = (Return m, tr1) /\
    createTokenTransaction w publicKey mintKeypair m options tr1
      = (Return response, tr') /\
    serialize sdk signed = Return uint8Array /\
    s = btoa (String_fromCharCode uint8Array).
Proof.
  rewrite launch_try_run.
  destruct (Keypair_generate_answer w tr) as [kp|] eqn:Hk; [|discriminate].
  destruct (uploadMetadata w tokenName tokenTicker description imageUrl options tr)
    as [[m|] tr1] eqn:Hu; [|discriminate].
  destruct (createTokenTransaction w publicKey kp m options tr1)
    as [[response|] tr2] eqn:Hc; [|discriminate].
  destruct (arrayBuffer response) as [data|]; [|discriminate].
  destruct (deserialize sdk data) as [tx|]; [|discriminate].
  destruct (sign sdk tx [kp]) as [signed|]; [|discriminate].
  destruct (serialize sdk signed) as [bytes|] eqn:Hz; [|discriminate].
  intros H. inversion H. subst.
  exists kp, m, tr1, response, signed, bytes. repeat split; assumption.
Qed.

Lemma trade_is_not_image (payload : Payload) (imageUrl : string) :
  trade_request payload <> image_request imageUrl.
Proof. intros H. apply (f_equal method) in H. discriminate H. Qed.

Lemma trade_is_not_upload (payload : Payload) (agent : option string)
    (form : FormData) :
  trade_request payload <> upload_request agent form.
Proof. intros H. apply (f_equal url) in H. discriminate H. Qed.

(** X10. The requests of a launch are exactly a prefix of: the image
    fetch, the POST to the IPFS endpoint with the text fields and the
    image file, the POST to the trade endpoint with the payload, in this
    order, cut at the first step that does not complete.  None is made
    when key generation fails; only the image fetch when the image cannot
    be read or the proxy agent cannot be constructed; the trade endpoint
    is not called when the upload fails or the payload cannot be built; a
    launch that returns has made all three. *)
Theorem launchPumpFunToken_request_order (w : World) (sdk : Web3)
    (publicKey tokenName tokenTicker description imageUrl : string)
    (options : option PumpFunTokenOptions.t) (tr : Trace) :
  let run :=
    launchPumpFunToken w sdk publicKey tokenName tokenTicker description imageUrl
      options tr in
  let upload :=
    uploadMetadata w tokenName tokenTicker description imageUrl options tr in
  exists new,
    requests (snd run) = requests tr ++ new /\
    new =
      match Keypair_generate_answer w tr with
      | Throw _ => []
      | Return mintKeypair =>
          image_request imageUrl ::
          match image_step w imageUrl tr with
          | Throw _ => []
          | Return imageBlob =>
              match proxy_agent w with
              | Throw _ => []
              | Return constructed =>
                  {| url := "https://pump.fun/api/ipfs";
                     method := Some "POST";
                     headers := [];
                     body :=
                       FormBody
                         (final_form
                            (metadata_fields tokenName tokenTicker description
                               options)
                            (image_file imageBlob));
                     agent := constructed |} ::
                  match fst upload with
                  | Throw _ => []
                  | Return m =>
                      match build_payload publicKey mintKeypair m options with
                      | Throw _ => []
                      | Return payload => [trade_request payload]
                      end
                  end
              end
          end
      end /\
    (exists n second third,
       new = firstn n [image_request imageUrl; second; third] /\
       url second = "https://pump.fun/api/ipfs" /\
       url third = "https://pumpportal.fun/api/trade-local") /\
    (throws (Keypair_generate_answer w tr) = true -> new = []) /\
    (throws (fst upload) = true ->
       forall payload, ~ In (trade_request payload) new) /\
    (forall s, fst run = Return s ->
       exists imageBlob constructed payload,
         new = [image_request imageUrl;
                upload_request_for tokenName tokenTicker description options
                  imageBlob constructed;
                trade_request payload]).
Proof.
  cbn zeta.
  exists (launch_requests w publicKey tokenName tokenTicker description imageUrl
            options tr).
  split; [apply launchPumpFunToken_requests|].
  split; [reflexivity|].
  split; [|split; [|split]].
  - unfold launch_requests.
    destruct (Keypair_generate_answer w tr) as [kp|].
    2:{ exists 0, (upload_request None []), (trade_request mock_payload).
        repeat split. }
    destruct (image_step w imageUrl tr) as [b|].
    2:{ exists 1, (upload_request None []), (trade_request mock_payload).
        repeat split. }
    destruct (proxy_agent w) as [constructed|].
    2:{ exists 1, (upload_request None []), (trade_request mock_payload).
        repeat split. }
    destruct (fst (uploadMetadata w tokenName tokenTicker description imageUrl
                     options tr)) as [m|].
    2:{ exists 2, (upload_request_for tokenName tokenTicker description options
                     b constructed), (trade_request mock_payload).
        repeat split. }
    destruct (build_payload publicKey kp m options) as [p|].
    + exists 3, (upload_request_for tokenName tokenTicker description options
                   b constructed), (trade_request p).
      repeat split.
    + exists 2, (upload_request_for tokenName tokenTicker description options
                   b constructed), (trade_request mock_payload).
      repeat split.
  - unfold launch_requests.
    destruct (Keypair_generate_answer w tr); [discriminate|reflexivity].
  - intros Hu payload. unfold launch_requests.
    destruct (Keypair_generate_answer w tr); [|intros []].
    destruct (image_step w imageUrl tr).
    + destruct (proxy_agent w).
      * destruct (fst (uploadMetadata w tokenName tokenTicker description
                         imageUrl options tr)); [discriminate|].
        intros [H|[H|[]]]; symmetry in H.
        -- exact (trade_is_not_image _ _ H).
        -- exact (trade_is_not_upload _ _ _ H).
      * intros [H|[]]. symmetry in H. exact (trade_is_not_image _ _ H).
    + intros [H|[]]. symmetry in H. exact (trade_is_not_image _ _ H).
  - intros s Hs. apply launch_returns in Hs. apply fst_pairing in Hs.
    apply launch_try_Return_inv in Hs.
    destruct Hs as [kp [m [tr1 [response [signed [bytes [Hk [Hu [Hc _]]]]]]]]].
    unfold launch_requests. rewrite Hk, Hu. cbn [fst].
    pose proof (uploadMetadata_shape w tokenName tokenTicker description
                  imageUrl options tr) as Su.
    cbn zeta in Su. rewrite Hu in Su. cbn [fst snd] in Su.
    destruct (image_step w imageUrl tr) as [b|]; [|destruct Su; discriminate].
    destruct (proxy_agent w) as [constructed|]; [|destruct Su; discriminate].
    pose proof (createTokenTransaction_shape w publicKey kp m options tr1) as Sc.
    cbn zeta in Sc. rewrite Hc in Sc. cbn [fst snd] in Sc.
    destruct (build_payload publicKey kp m options) as [p|];
      [|destruct Sc; discriminate].
    exists b, constructed, p. reflexivity.
Qed.

(** X11. Only the POST to the IPFS endpoint can go through the proxy:
    every other request of a launch is made without an agent, and so is
    that POST when [IPFS_HTTP_PROXY] is unset or empty. *)
Theorem launchPumpFunToken_proxy (w : World) (sdk : Web3)
    (publicKey tokenName tokenTicker description imageUrl : string)
    (options : option PumpFunTokenOptions.t) (tr : Trace) :
  let run :=
    launchPumpFunToken w sdk publicKey tokenName tokenTicker description imageUrl
      options tr in
  exists new,
    requests (snd run) = requests tr ++ new /\
    Forall (fun req =>
              agent req = None \/
              (url req = "https://pump.fun/api/ipfs" /\
               method req = Some "POST" /\
               agent req = IPFS_HTTP_PROXY w)) new /\
    (present (IPFS_HTTP_PROXY w) = false ->
     Forall (fun req => agent req = None) new).
Proof.
  cbn zeta.
  exists (launch_requests w publicKey tokenName tokenTicker description imageUrl
            options tr).
  split; [apply launchPumpFunToken_requests|].
  unfold launch_requests, upload_request_for.
  destruct (Keypair_generate_answer w tr) as [kp|]; [|split; constructor].
  assert (Himg : Forall (fun req => agent req = None \/
                           (url req = "https://pump.fun/api/ipfs" /\
                            method req = Some "POST" /\
                            agent req = IPFS_HTTP_PROXY w))
                   [image_request imageUrl] /\
                 (present (IPFS_HTTP_PROXY w) = false ->
                  Forall (fun req => agent req = None) [image_request imageUrl])).
  { split; [|intros _]; (apply Forall_cons; [|apply Forall_nil]).
    - left. reflexivity.
    - reflexivity. }
  destruct (image_step w imageUrl tr) as [b|]; [|exact Himg].
  destruct (proxy_agent w) as [constructed|] eqn:Hg; [|exact Himg].
  apply proxy_agent_Return in Hg.
  assert (Hu : forall form,
             let req := upload_request constructed form in
             (agent req = None \/
              (url req = "https://pump.fun/api/ipfs" /\
               method req = Some "POST" /\ agent req = IPFS_HTTP_PROXY w)) /\
             (present (IPFS_HTTP_PROXY w) = false -> agent req = None)).
  { intros form. cbn. rewrite Hg. destruct (present (IPFS_HTTP_PROXY w)).
    - split; [right; auto|discriminate].
    - split; [left; reflexivity|reflexivity]. }
  assert (Hall : forall rest : list Request,
             Forall (fun req => agent req = None) rest ->
             forall form,
               Forall (fun req =>
                         agent req = None \/
                         (url req = "https://pump.fun/api/ipfs" /\
                          method req = Some "POST" /\
                          agent req = IPFS_HTTP_PROXY w))
                 (image_request imageUrl
                  :: upload_request constructed form :: rest) /\
               (present (IPFS_HTTP_PROXY w) = false ->
                Forall (fun req => agent req = None)
                  (image_request imageUrl
                   :: upload_request constructed form :: rest))).
  { intros rest Hr form. split.
    - apply Forall_cons; [left; reflexivity|].
      apply Forall_cons; [apply Hu|].
      eapply Forall_impl; [|exact Hr]. intros req H. left. exact H.
    - intros Hp. apply Forall_cons; [reflexivity|].
      apply Forall_cons; [apply Hu, Hp|exact Hr]. }
  destruct (fst (uploadMetadata w tokenName tokenTicker description imageUrl
                   options tr)) as [m|].
  - destruct (build_payload publicKey kp m options) as [p|]; apply Hall.
    + apply Forall_cons; [reflexivity|apply Forall_nil].
    + apply Forall_nil.
  - apply Hall, Forall_nil.
Qed.

(** X12. A launch that succeeds writes nothing to the console.  A launch
    that fails writes the thrown value once, under "Error in
    launchpumpfuntoken:", and after it, only when the value is an [Error]
    that has a [logs] property, that property under "Transaction logs:". *)
Theorem launchPumpFunToken_console (w : World) (sdk : Web3)
    (publicKey tokenName tokenTicker description imageUrl : string)
    (options : option PumpFunTokenOptions.t) (tr : Trace) :
  let attempt :=
    launch_try w sdk publicKey tokenName tokenTicker description imageUrl options tr in
  let run :=
    launchPumpFunToken w sdk publicKey tokenName tokenTicker description imageUrl
      options tr in
  (forall s, fst attempt = Return s -> run = attempt) /\
  (forall e, fst attempt = Throw e ->
     snd run =
       snd attempt ++
       ConsoleError "Error in launchpumpfuntoken:" (LogThrown e) ::
       match e with
       | ErrorObject _ _ props =>
           match assoc "logs" props with
           | Some v => [ConsoleError "Transaction logs:" (LogValue v)]
           | None => []
           end
       | ThrownString _ => []
       end).
Proof.
  cbn zeta. rewrite launchPumpFunToken_run.
  destruct (launch_try w sdk publicKey tokenName tokenTicker description
              imageUrl options tr) as [[s|e] tr']; cbn [fst snd]; split.
  - reflexivity.
  - discriminate.
  - discriminate.
  - intros e' H. inversion H; subst e'. unfold catch_logs.
    destruct e as [n msg props|str]; [|reflexivity].
    cbn. destruct (assoc "logs" props); reflexivity.
Qed.





(** X14. [uploadMetadata] returns a value only as the parsed body of a
    2xx answer to its own POST, made after the image was read and the
    agent of line 63, if any, was constructed; and every such answer whose
    body parses is returned. *)
Theorem uploadMetadata_returns (w : World)
    (tokenName tokenTicker description imageUrl : string)
    (options : option PumpFunTokenOptions.t) (tr : Trace) (m : JsValue) :
  fst (uploadMetadata w tokenName tokenTicker description imageUrl options tr)
    = Return m <->
  exists imageBlob constructed r,
    image_step w imageUrl tr = Return imageBlob /\
    proxy_agent w = Return constructed /\
    fetch_answer w (tr ++ [Fetch (image_request imageUrl)])
      (upload_request_for tokenName tokenTicker description options imageBlob
         constructed) = Return r /\
    ok r = true /\
    json r = Return m.
Proof.
  rewrite uploadMetadata_by_image_step. cbn zeta.
  destruct (image_step w imageUrl tr) as [b|cause0].
  2:{ cbn [fst]. split; [discriminate|].
      intros [b' [a' [r [Hb _]]]]. discriminate. }
  destruct (proxy_agent w) as [constructed|e0].
  2:{ cbn [fst]. split; [discriminate|].
      intros [b' [a' [r [_ [Ha _]]]]]. discriminate. }
  destruct (fetch_answer w (tr ++ [Fetch (image_request imageUrl)])
              (upload_request_for tokenName tokenTicker description options b
                 constructed)) as [r0|cause1] eqn:Hf.
  - destruct (ok r0) eqn:Hok; cbn [fst]; split.
    + intros H. exists b, constructed, r0. auto.
    + intros [b' [a' [r [Hb [Ha [H [_ Hj]]]]]]].
      inversion Hb; subst b'. inversion Ha; subst a'.
      rewrite Hf in H. inversion H; subst r. exact Hj.
    + discriminate.
    + intros [b' [a' [r [Hb [Ha [H [Hk _]]]]]]].
      inversion Hb; subst b'. inversion Ha; subst a'.
      rewrite Hf in H. inversion H; subst r. congruence.
  - cbn [fst]. split; [discriminate|].
    intros [b' [a' [r [Hb [Ha [H _]]]]]].
    inversion Hb; subst b'. inversion Ha; subst a'. congruence.
Qed.
